(** * Conversational todo backend: tool layer, executor, query agent, orchestrator

    A shallow embedding of

    - [src/models/task.py]              (the [Task] table),
    - [src/mcp/tools.py]                (the five tools),
    - [src/mcp/server.py]               ([MCPServer.execute_tool]),
    - [src/agents/task_query.py]        ([TaskQueryAgent]),
    - [src/services/todo_service.py]    ([get_task_by_id_and_user]),
    - [src/agents/todo_orchestrator.py] ([TodoChatOrchestrator.process_message]),

    followed by the properties of the specification that concern them.

    Modelling conventions.

    - The [task] table is a finite map from the primary key [id] to the
      remaining columns; the two [VARCHAR(255)] columns ([title], [user_id],
      from [max_length=255]) refuse values of more than 255 characters, as
      the configured PostgreSQL database does.  The one over-long value that
      PostgreSQL accepts, a text whose characters beyond the 255th are all
      spaces (stored cut to 255 characters), is refused here like the others:
      what is stated about a stored title is stated for titles within the
      bound, and what is stated about refusal for titles that do not end in a
      space.  [Task(...)] itself validates nothing: the class is a
      [table=True] model.
    - A query without [ORDER BY] hands out its rows in an order of the
      database's choosing; the model fixes one, and no statement depends on
      which.
    - Python code that may raise runs in a state-and-exception monad over the
      [World]: the table, the key sequence, and two tapes that stand for the
      environment, the successive readings of [datetime.utcnow()] and the
      successive verdicts of the database connection (a statement either goes
      through or raises).
    - Strings are Rocq strings, holding the UTF-8 bytes of the Python text;
      a text occurs in another as a sequence of characters exactly when its
      bytes occur in the bytes of the other.  [str.lower] is computed on text
      that is all ASCII; on other text it is the interpreter's Unicode case
      mapping, a parameter [unicode_lower] of the development.
    - Keyword arguments are taken at the types the tool schemas declare
      ([user_id], [title], [status_filter]: string; [task_id]: integer); any
      other keyword is recorded by name only.
    - The text [str(e)] of an exception is produced by the interpreter and the
      database driver; it is a parameter [str] of the development. *)

From Stdlib Require Import ZArith String Ascii DecimalString.
From stdpp Require Import base strings gmap list.

Local Open Scope Z_scope.
Local Open Scope string_scope.

(** ** Python strings *)

(** [str(n)] for an [int], as an f-string interpolates it. *)
Definition py_str_int (z : Z) : string := NilZero.string_of_int (Z.to_int z).

(** [c.lower()] on one ASCII character: the upper-case letters move down by
    32. *)
Definition lower_ascii (c : ascii) : ascii :=
  let n := nat_of_ascii c in
  if (65 <=? n)%nat && (n <=? 90)%nat then ascii_of_nat (n + 32) else c.

(** [s.lower()] for a text that is all ASCII. *)
Fixpoint ascii_lower (s : string) : string :=
  match s with
  | EmptyString => EmptyString
  | String c s' => String (lower_ascii c) (ascii_lower s')
  end.

(** [len(s)]: the number of characters of a text held as UTF-8, that is, of
    the bytes that do not continue a character. *)
Definition continuation (c : ascii) : bool :=
  (128 <=? nat_of_ascii c)%nat && (nat_of_ascii c <? 192)%nat.

Fixpoint characters (s : string) : nat :=
  match s with
  | EmptyString => 0%nat
  | String c s' => ((if continuation c then 0 else 1) + characters s')%nat
  end.

(** [s.isascii()] *)
Fixpoint is_ascii (s : string) : bool :=
  match s with
  | EmptyString => true
  | String c s' => (nat_of_ascii c <? 128)%nat && is_ascii s'
  end.

(** [needle in hay] on two strings: [needle] occurs as a contiguous run. *)
Fixpoint contains (needle hay : string) : bool :=
  if String.prefix needle hay then true
  else match hay with
       | EmptyString => false
       | String _ hay' => contains needle hay'
       end.

(** ** models/task.py *)

(** A row of the [task] table, without its primary key [id]. *)
Record Task := mkTask {
  task_title : string;
  task_status : string;
  task_user_id : string;
  task_created_at : Z;
  task_completed_at : option Z;
  task_updated_at : Z
}.

Definition set_title (title : string) (t : Task) : Task :=
  mkTask title (task_status t) (task_user_id t)
         (task_created_at t) (task_completed_at t) (task_updated_at t).

Definition set_completed (now : Z) (t : Task) : Task :=
  mkTask (task_title t) "completed" (task_user_id t)
         (task_created_at t) (Some now) (task_updated_at t).

(** [Field(max_length=255)]: the length of the column in the table. *)
Definition max_length : nat := 255.

(** [Field(min_length=1, max_length=255)] as a check on a value; it is run by
    [model_validate] and by request parsing, not by [Task(...)]. *)
Definition valid_title (title : string) : bool :=
  (1 <=? characters title)%nat && (characters title <=? max_length)%nat.

(** ** Tool results and keyword arguments *)

(** One entry of the ["tasks"] list that [list_tasks] returns. *)
Record TaskSummary := mkSummary {
  sum_id : Z;
  sum_title : string;
  sum_status : string
}.

(** The dict a tool returns.  ["success"] is always present; the other keys
    are present in some results only. *)
Record ToolResult := mkResult {
  success : bool;
  message : option string;
  res_task_id : option Z;
  res_tasks : option (list TaskSummary);
  res_count : option nat
}.

Definition failure (msg : string) : ToolResult :=
  mkResult false (Some msg) None None None.

Definition succeeded (msg : string) : ToolResult :=
  mkResult true (Some msg) None None None.

(** [**kwargs]: the four keywords of the tool schemas at their declared
    types, and the names of all other keywords present. *)
Record kwargs := mkKwargs {
  kw_user_id : option string;
  kw_title : option string;
  kw_task_id : option Z;
  kw_status_filter : option string;
  kw_others : list string
}.

(** [function_args["user_id"] = user_id] *)
Definition set_user_id (user_id : string) (kw : kwargs) : kwargs :=
  mkKwargs (Some user_id) (kw_title kw) (kw_task_id kw)
           (kw_status_filter kw) (kw_others kw).

(** ** Exceptions *)

Inductive exn :=
| TypeError (callee : string) (kw : kwargs)
    (* the keywords do not fit the callee's parameters *)
| JSONDecodeError
    (* the argument payload is not the text of a JSON object *)
| OperationalError (info : string)
    (* the database connection failed on a statement *)
| DataError (value : string)
    (* value too long for a VARCHAR(255) column *)
| IntegrityError (key : Z).
    (* duplicate primary key *)

Inductive outcome (A : Type) :=
| Ok (a : A)
| Raised (e : exn).
Arguments Ok {A} a.
Arguments Raised {A} e.

(** ** The world: database and environment *)

Record World := mkWorld {
  tasks : gmap Z Task;            (* the task table, by primary key *)
  next_id : Z;                    (* the sequence behind the id column *)
  clock : list Z;                 (* coming readings of datetime.utcnow() *)
  faults : list (option string)   (* coming verdicts of the connection *)
}.

Definition with_tasks (m : gmap Z Task) (w : World) : World :=
  mkWorld m (next_id w) (clock w) (faults w).

(** ** The monad of Python code over the world *)

Definition M (A : Type) : Type := World -> outcome A * World.

Definition ret {A} (a : A) : M A := fun w => (Ok a, w).

Definition raise {A} (e : exn) : M A := fun w => (Raised e, w).

Definition bind {A B} (m : M A) (k : A -> M B) : M B :=
  fun w => match m w with
           | (Ok a, w') => k a w'
           | (Raised e, w') => (Raised e, w')
           end.

Notation "'let*' x ':=' m 'in' k" := (bind m (fun x => k))
  (at level 10, x name, m at level 100, k at level 200).
Notation "'run' m 'in' k" := (bind m (fun _ => k))
  (at level 10, m at level 100, k at level 200).

(** [try: body  except Exception as e: return handler(e)].  What the body did
    to the world before it raised stays done. *)
Definition try_except {A} (body : M A) (handler : exn -> A) : World -> A * World :=
  fun w => match body w with
           | (Ok a, w') => (a, w')
           | (Raised e, w') => (handler e, w')
           end.

(** A function that cannot raise, used inside monadic code. *)
Definition lift {A} (f : World -> A * World) : M A :=
  fun w => let '(a, w') := f w in (Ok a, w').

(** [datetime.utcnow()] *)
Definition utcnow : M Z :=
  fun w => (Ok (hd 0 (clock w)),
            mkWorld (tasks w) (next_id w) (tl (clock w)) (faults w)).

(** Every statement sent to the database first meets the connection, which
    takes the next verdict off the tape. *)
Definition consume_fault (w : World) : World :=
  mkWorld (tasks w) (next_id w) (clock w) (tl (faults w)).

Definition statement : M unit :=
  fun w =>
    match hd None (faults w) with
    | Some info => (Raised (OperationalError info), consume_fault w)
    | None => (Ok tt, consume_fault w)
    end.

(** A value bound to a [VARCHAR(255)] column: the column counts
    characters. *)
Definition varchar (s : string) : M unit :=
  if (characters s <=? max_length)%nat then ret tt else raise (DataError s).

(** [session.get(Task, task_id)] *)
Definition session_get (task_id : Z) : M (option Task) :=
  run statement in
  fun w => (Ok (tasks w !! task_id), w).

(** [session.add(task); session.commit()] for a new object: an INSERT whose
    values are bound to their columns and whose [id] is then drawn from the
    sequence (a value drawn is spent even when the key turns out to be
    taken).  Returns the key. *)
Definition commit_insert (t : Task) : M Z :=
  run statement in
  run varchar (task_title t) in
  run varchar (task_user_id t) in
  let* key := (fun w => (Ok (next_id w),
                         mkWorld (tasks w) (next_id w + 1) (clock w) (faults w))) in
  fun w => match tasks w !! key with
           | Some _ => (Raised (IntegrityError key), w)
           | None => (Ok key, with_tasks (<[key := t]> (tasks w)) w)
           end.

(** [session.add(task); session.commit()] for a loaded object whose [title]
    was assigned: an UPDATE of that column. *)
Definition commit_title (task_id : Z) (title : string) : M unit :=
  run statement in
  run varchar title in
  fun w => (Ok tt, with_tasks (alter (set_title title) task_id (tasks w)) w).

(** The same for [status] and [completed_at]. *)
Definition commit_completed (task_id : Z) (now : Z) : M unit :=
  run statement in
  fun w => (Ok tt, with_tasks (alter (set_completed now) task_id (tasks w)) w).

(** [session.delete(task); session.commit()] *)
Definition commit_delete (task_id : Z) : M unit :=
  run statement in
  fun w => (Ok tt, with_tasks (delete task_id (tasks w)) w).

(** [session.refresh(task)], and the reload that reading an attribute of a
    committed (hence expired) object triggers: one more statement, which
    finds the values just written. *)
Definition reload {A} (a : A) : M A :=
  run statement in ret a.

(** [select(Task).where(Task.user_id == user_id)] with the optional
    [.where(Task.status == ...)], then [session.exec(query).all()]: the rows
    the query selects.  The query has no [ORDER BY]: the order of the rows is
    the database's choice, here the order of [map_to_list]. *)
Definition status_matches (status_filter : string) (t : Task) : Prop :=
  if decide (status_filter = "pending") then task_status t = "pending"
  else if decide (status_filter = "completed") then task_status t = "completed"
  else True.

Global Instance status_matches_dec status_filter t :
  Decision (status_matches status_filter t).
Proof. unfold status_matches. repeat case_decide; apply _. Defined.

Definition selected (user_id status_filter : string) (row : Z * Task) : Prop :=
  task_user_id row.2 = user_id /\ status_matches status_filter row.2.

Global Instance selected_dec user_id status_filter row :
  Decision (selected user_id status_filter row).
Proof. unfold selected. apply _. Defined.

Definition exec_select (user_id status_filter : string) : M (list (Z * Task)) :=
  run statement in
  fun w => (Ok (map_to_list (filter (selected user_id status_filter) (tasks w))), w).

(** ** mcp/tools.py, mcp/server.py, agents/, services/ *)

Section Backend.

(** [str(e)]: the text of an exception. *)
Variable str : exn -> string.

(** [s.lower()] on a text that is not all ASCII: the Unicode case mapping of
    the interpreter. *)
Variable unicode_lower : string -> string.

(** [s.lower()] *)
Definition lower (s : string) : string :=
  if is_ascii s then ascii_lower s else unicode_lower s.

(** *** mcp/tools.py *)

Definition add_task (user_id title : string) : World -> ToolResult * World :=
  try_except
    (let* created := utcnow in
     let* updated := utcnow in
     let task := mkTask title "pending" user_id created None updated in
     let* key := commit_insert task in
     let* key := reload key in
     ret (mkResult true (Some ("Successfully added task '" +:+ title +:+ "'"))
                   (Some key) None None))
    (fun e => failure ("Error adding task: " +:+ str e)).

Definition format_task (row : Z * Task) : TaskSummary :=
  mkSummary row.1 (task_title row.2) (task_status row.2).

Definition list_tasks (user_id status_filter : string) : World -> ToolResult * World :=
  try_except
    (let* rows := exec_select user_id status_filter in
     let formatted_tasks := format_task <$> rows in
     ret (mkResult true None None (Some formatted_tasks)
                   (Some (length formatted_tasks))))
    (fun e => failure ("Error listing tasks: " +:+ str e)).

Definition complete_task (user_id : string) (task_id : Z) : World -> ToolResult * World :=
  try_except
    (let* found := session_get task_id in
     match found with
     | None => ret (failure ("Task with ID " +:+ py_str_int task_id +:+ " not found"))
     | Some task =>
         if decide (task_user_id task ≠ user_id)
         then ret (failure "Access denied: You can only modify your own tasks")
         else
           let* now := utcnow in
           run commit_completed task_id now in
           let* task := reload (set_completed now task) in
           ret (succeeded ("Successfully marked task '" +:+ task_title task
                           +:+ "' as completed"))
     end)
    (fun e => failure ("Error completing task: " +:+ str e)).

Definition delete_task (user_id : string) (task_id : Z) : World -> ToolResult * World :=
  try_except
    (let* found := session_get task_id in
     match found with
     | None => ret (failure ("Task with ID " +:+ py_str_int task_id +:+ " not found"))
     | Some task =>
         if decide (task_user_id task ≠ user_id)
         then ret (failure "Access denied: You can only delete your own tasks")
         else
           run commit_delete task_id in
           ret (succeeded ("Successfully deleted task '" +:+ task_title task +:+ "'"))
     end)
    (fun e => failure ("Error deleting task: " +:+ str e)).

Definition update_task (user_id : string) (task_id : Z) (title : string)
  : World -> ToolResult * World :=
  try_except
    (let* found := session_get task_id in
     match found with
     | None => ret (failure ("Task with ID " +:+ py_str_int task_id +:+ " not found"))
     | Some task =>
         if decide (task_user_id task ≠ user_id)
         then ret (failure "Access denied: You can only modify your own tasks")
         else
           run commit_title task_id title in
           ret (succeeded ("Successfully updated task to '" +:+ title +:+ "'"))
     end)
    (fun e => failure ("Error updating task: " +:+ str e)).

(** *** mcp/server.py *)

Inductive tool := AddTask | ListTasks | CompleteTask | DeleteTask | UpdateTask.

(** [self.tools] *)
Definition tools_registry : gmap string tool :=
  <["add_task" := AddTask]> (
  <["list_tasks" := ListTasks]> (
  <["complete_task" := CompleteTask]> (
  <["delete_task" := DeleteTask]> (
  <["update_task" := UpdateTask]> ∅)))).

Definition tool_name_of (f : tool) : string :=
  match f with
  | AddTask => "add_task"
  | ListTasks => "list_tasks"
  | CompleteTask => "complete_task"
  | DeleteTask => "delete_task"
  | UpdateTask => "update_task"
  end.

(** The call of [tool_func] with [**kwargs]: Python binds the keywords to the parameters of the
    function, raising [TypeError] for a keyword the function does not have and
    for a parameter without default that no keyword provides; then the body
    runs. *)
Definition call_tool (f : tool) (kw : kwargs) : M ToolResult :=
  match f, kw with
  | AddTask, mkKwargs (Some user_id) (Some title) None None [] =>
      lift (add_task user_id title)
  | ListTasks, mkKwargs (Some user_id) None None status_filter [] =>
      lift (list_tasks user_id (default "all" status_filter))
  | CompleteTask, mkKwargs (Some user_id) None (Some task_id) None [] =>
      lift (complete_task user_id task_id)
  | DeleteTask, mkKwargs (Some user_id) None (Some task_id) None [] =>
      lift (delete_task user_id task_id)
  | UpdateTask, mkKwargs (Some user_id) (Some title) (Some task_id) None [] =>
      lift (update_task user_id task_id title)
  | _, _ => raise (TypeError (tool_name_of f) kw)
  end.

(** [MCPServer.execute_tool] *)
Definition execute_tool (tool_name : string) (kw : kwargs) : World -> ToolResult * World :=
  match tools_registry !! tool_name with
  | None => fun w => (failure ("Tool '" +:+ tool_name +:+ "' not found"), w)
  | Some tool_func =>
      try_except
        (call_tool tool_func kw)
        (fun e => failure ("Error executing tool '" +:+ tool_name +:+ "': " +:+ str e))
  end.

(** *** agents/task_query.py *)

(** [TaskQueryAgent.list_tasks] *)
Definition TaskQueryAgent_list_tasks (user_id status_filter : string)
  : World -> ToolResult * World :=
  execute_tool "list_tasks" (mkKwargs (Some user_id) None None (Some status_filter) []).

(** [search_term.lower() in task.get("title", "").lower()] *)
Definition title_matches (search_term : string) (task : TaskSummary) : bool :=
  contains (lower search_term) (lower (sum_title task)).

(** [TaskQueryAgent.search_tasks] *)
Definition search_tasks (user_id search_term status_filter : string)
  : World -> ToolResult * World :=
  fun w =>
    let '(result, w') := TaskQueryAgent_list_tasks user_id status_filter w in
    if negb (success result) then (result, w')
    else
      let all_tasks := default [] (res_tasks result) in
      let matching_tasks := List.filter (title_matches search_term) all_tasks in
      (mkResult true None None (Some matching_tasks) (Some (length matching_tasks)), w').

(** *** services/todo_service.py *)

(** [TodoService.get_task_by_id_and_user]: the row with this [id] and this
    [user_id], if any. *)
Definition get_task_by_id_and_user (user_id : string) (task_id : Z) : M (option Task) :=
  run statement in
  fun w => (Ok (match tasks w !! task_id with
                | Some task => if decide (task_user_id task = user_id) then Some task else None
                | None => None
                end), w).

(** *** agents/todo_orchestrator.py *)

(** One entry of [response_message.tool_calls].  [function_arguments] is what
    [json.loads(tool_call.function.arguments)] makes of the payload: [None]
    when the text is not JSON or is not a JSON object, in which case line 93
    or line 96 raises. *)
Record ToolCall := mkToolCall {
  function_name : string;
  function_arguments : option kwargs
}.

(** [response.choices[0].message]; [tool_calls] is empty when the provider
    sent none. *)
Record ResponseMessage := mkResponse {
  content : option string;
  tool_calls : list ToolCall
}.

(** The dict [process_message] returns. *)
Record TurnResult := mkTurn {
  response : string;
  tool_calls_made : list string;
  tool_results : list ToolResult
}.

Definition json_loads (payload : option kwargs) : M kwargs :=
  match payload with
  | Some function_args => ret function_args
  | None => raise JSONDecodeError
  end.

(** [self.mcp_server.execute_tool(function_name, **function_args)]: the call
    itself raises when a keyword repeats one of the two positional parameters
    of [execute_tool]; this happens outside the [try] of [execute_tool]. *)
Definition invoke_execute_tool (function_name : string) (function_args : kwargs)
  : M ToolResult :=
  if decide ("tool_name" ∈ kw_others function_args ∨ "self" ∈ kw_others function_args)
  then raise (TypeError "execute_tool" function_args)
  else lift (execute_tool function_name function_args).

(** The loop [for tool_call in tool_calls] of lines 90 to 101; each entry of
    the value pairs what was appended to [tool_calls_made] with what was
    appended to [tool_results]. *)
Fixpoint run_tool_calls (user_id : string) (calls : list ToolCall)
  : M (list (string * ToolResult)) :=
  match calls with
  | [] => ret []
  | tool_call :: rest =>
      let* function_args := json_loads (function_arguments tool_call) in
      let function_args := set_user_id user_id function_args in
      let* result := invoke_execute_tool (function_name tool_call) function_args in
      let* done := run_tool_calls user_id rest in
      ret ((function_name tool_call, result) :: done)
  end.

(** Lines 110 to 122: the reply made from the tool results. *)
Definition success_results (results : list ToolResult) : list ToolResult :=
  List.filter success results.

Definition error_results (results : list ToolResult) : list ToolResult :=
  List.filter (fun r => negb (success r)) results.

Definition responses (results : list ToolResult) : list string :=
  ((fun r => default "Operation completed successfully" (message r))
     <$> success_results results)
  ++ ((fun r => "Error: " +:+ default "Operation failed" (message r))
     <$> error_results results).

(** Lines 104 to 124.  An empty [content] is as falsy as [None]. *)
Definition final_response (content : option string) (results : list ToolResult) : string :=
  match content with
  | Some (String c s) => String c s
  | _ =>
      match results with
      | [] => "I've processed your request."
      | _ => String.concat " " (responses results)
      end
  end.

(** [TodoChatOrchestrator.process_message] from line 82, given the message
    the provider returned. *)
Definition process_message (user_id : string) (response_message : ResponseMessage)
  : M TurnResult :=
  let* done := run_tool_calls user_id (tool_calls response_message) in
  let tool_results := done.*2 in
  ret (mkTurn (final_response (content response_message) tool_results)
              (done.*1) tool_results).

End Backend.

(** ** More of the backend: schemas, agents, service layer, REST routes *)

(** *** mcp/server.py: the tool schemas *)

(** One entry of ["properties"]. *)
Record ParamSchema := mkParam {
  param_type : string;
  param_enum : option (list string);
  param_description : string
}.

(** A tool schema; ["parameters"] is always of type ["object"]. *)
Record ToolSchema := mkSchema {
  schema_name : string;
  schema_description : string;
  schema_properties : list (string * ParamSchema);
  schema_required : list string
}.

Definition user_id_param : string * ParamSchema :=
  ("user_id", mkParam "string" None "The ID of the user").

(** The dict [schemas] of [get_tool_schema], in the order it is written. *)
Definition schemas : list (string * ToolSchema) :=
  [ ("add_task",
     mkSchema "add_task" "Add a new task to the user's todo list"
       [ user_id_param;
         ("title", mkParam "string" None "The title of the task to add") ]
       ["user_id"; "title"]);
    ("list_tasks",
     mkSchema "list_tasks" "List tasks from the user's todo list with optional filtering"
       [ user_id_param;
         ("status_filter",
          mkParam "string" (Some ["pending"; "completed"; "all"]) "Filter tasks by status") ]
       ["user_id"]);
    ("complete_task",
     mkSchema "complete_task" "Mark a task as completed"
       [ user_id_param;
         ("task_id", mkParam "integer" None "The ID of the task to complete") ]
       ["user_id"; "task_id"]);
    ("delete_task",
     mkSchema "delete_task" "Delete a task from the user's todo list"
       [ user_id_param;
         ("task_id", mkParam "integer" None "The ID of the task to delete") ]
       ["user_id"; "task_id"]);
    ("update_task",
     mkSchema "update_task" "Update the title of a task in the user's todo list"
       [ user_id_param;
         ("task_id", mkParam "integer" None "The ID of the task to update");
         ("title", mkParam "string" None "The new title for the task") ]
       ["user_id"; "task_id"; "title"]) ].

(** [MCPServer.get_tool_schema]: [schemas.get(tool_name, {})]; [None] stands
    for the empty dict. *)
Definition get_tool_schema (tool_name : string) : option ToolSchema :=
  snd <$> List.find (fun entry => String.eqb entry.1 tool_name) schemas.

(** [self.tools.keys()], in the order in which [__init__] writes the dict. *)
Definition tools_keys : list string :=
  ["add_task"; "list_tasks"; "complete_task"; "delete_task"; "update_task"].

(** [MCPServer.get_all_tool_schemas] *)
Definition get_all_tool_schemas : list (option ToolSchema) :=
  get_tool_schema <$> tools_keys.

(** The names of the keywords present in [**kwargs]. *)
Definition present {A} (name : string) (value : option A) : list string :=
  match value with
  | Some _ => [name]
  | None => []
  end.

Definition keywords (kw : kwargs) : list string :=
  present "user_id" (kw_user_id kw)
  ++ present "title" (kw_title kw)
  ++ present "task_id" (kw_task_id kw)
  ++ present "status_filter" (kw_status_filter kw)
  ++ kw_others kw.

(** [kw_others] holds other names than the four of the schemas. *)
Definition others_are_other (kw : kwargs) : Prop :=
  Forall (fun name => name ∉ ["user_id"; "title"; "task_id"; "status_filter"]) (kw_others kw).

(** *** services/todo_service.py *)

(** [TodoService.get_tasks_by_user] *)
Definition get_tasks_by_user (user_id : string) : M (list (Z * Task)) :=
  run statement in
  fun w => (Ok (map_to_list (filter (fun row => task_user_id row.2 = user_id) (tasks w))), w).

(** [TodoService.delete_task] *)
Definition TodoService_delete_task (user_id : string) (task_id : Z) : M bool :=
  let* db_task := get_task_by_id_and_user user_id task_id in
  match db_task with
  | None => ret false
  | Some _ =>
      run commit_delete task_id in
      ret true
  end.

(** [TaskUpdate].  A field is unset ([None]), or set, to a string or to
    [None] (an explicit null in the request). *)
Record TaskUpdate := mkTaskUpdate {
  update_title : option (option string);
  update_status : option (option string)
}.

(** The loop [for field, value in task_data.items(): setattr(...)] over the
    fields that are set.  The columns [title] and [status] are NOT NULL:
    [None] stands for a row that has [None] in one of them and that the
    database will refuse. *)
Definition assign_fields (task_update : TaskUpdate) (db_task : Task) : option Task :=
  match update_title task_update, update_status task_update with
  | Some None, _ | _, Some None => None
  | new_title, new_status =>
      Some (mkTask (default (task_title db_task) (new_title ≫= id))
                   (default (task_status db_task) (new_status ≫= id))
                   (task_user_id db_task) (task_created_at db_task)
                   (task_completed_at db_task) (task_updated_at db_task))
  end.

Definition set_updated_at (now : Z) (t : Task) : Task :=
  mkTask (task_title t) (task_status t) (task_user_id t)
         (task_created_at t) (task_completed_at t) now.

(** [TodoService.update_task].  The commit is one UPDATE of the columns that
    were assigned: a title that is too long is refused with a [DataError], a
    NOT NULL column that was assigned [None] with an [IntegrityError]. *)
Definition TodoService_update_task (user_id : string) (task_id : Z)
    (task_update : TaskUpdate) : M (option Task) :=
  let* db_task := get_task_by_id_and_user user_id task_id in
  match db_task with
  | None => ret None
  | Some db_task =>
      let assigned := assign_fields task_update db_task in
      let* now := utcnow in
      run statement in
      run match update_title task_update with
          | Some (Some title) => varchar title
          | _ => ret tt
          end in
      match assigned with
      | None => raise (IntegrityError task_id)
      | Some row =>
          let row := set_updated_at now row in
          run (fun w => (Ok tt, with_tasks (<[task_id := row]> (tasks w)) w)) in
          let* row := reload row in
          ret (Some row)
      end
  end.

(** *** utils/auth.py, api/tasks.py *)

(** [verify_user_ownership] *)
Definition verify_user_ownership (user_id_from_token user_id_from_url : string) : bool :=
  bool_decide (user_id_from_token = user_id_from_url).

(** What a route hands to the framework: a value, or an [HTTPException]. *)
Inductive http (A : Type) :=
| Returned (a : A)
| HTTPException (status_code : nat) (detail : string).
Arguments Returned {A} a.
Arguments HTTPException {A} status_code detail.

(** [GET /api/{user_id}/tasks] *)
Definition api_get_tasks (token_user_id user_id : string) : M (http (list (Z * Task))) :=
  if negb (verify_user_ownership token_user_id user_id)
  then ret (HTTPException 403 "Not authorized to access these tasks")
  else
    let* tasks := get_tasks_by_user user_id in
    ret (Returned tasks).

(** [GET /api/{user_id}/tasks/{task_id}] *)
Definition api_get_task (token_user_id user_id : string) (task_id : Z) : M (http Task) :=
  if negb (verify_user_ownership token_user_id user_id)
  then ret (HTTPException 403 "Not authorized to access these tasks")
  else
    let* db_task := get_task_by_id_and_user user_id task_id in
    match db_task with
    | None => ret (HTTPException 404 "Task not found")
    | Some db_task => ret (Returned db_task)
    end.

(** [PUT /api/{user_id}/tasks/{task_id}] *)
Definition api_update_task (token_user_id user_id : string) (task_id : Z)
    (task_update : TaskUpdate) : M (http Task) :=
  if negb (verify_user_ownership token_user_id user_id)
  then ret (HTTPException 403 "Not authorized to access these tasks")
  else
    let* db_task := TodoService_update_task user_id task_id task_update in
    match db_task with
    | None => ret (HTTPException 404 "Task not found")
    | Some db_task => ret (Returned db_task)
    end.

(** [DELETE /api/{user_id}/tasks/{task_id}] *)
Definition api_delete_task (token_user_id user_id : string) (task_id : Z) : M (http unit) :=
  if negb (verify_user_ownership token_user_id user_id)
  then ret (HTTPException 403 "Not authorized to access these tasks")
  else
    let* deleted := TodoService_delete_task user_id task_id in
    if negb deleted
    then ret (HTTPException 404 "Task not found")
    else ret (Returned tt).

Section Agents.

Variable str : exn -> string.

(** *** agents/task_action.py *)

Definition TaskActionAgent_add_task (user_id title : string) : World -> ToolResult * World :=
  execute_tool str "add_task" (mkKwargs (Some user_id) (Some title) None None []).

Definition TaskActionAgent_update_task (user_id : string) (task_id : Z) (title : string)
  : World -> ToolResult * World :=
  execute_tool str "update_task" (mkKwargs (Some user_id) (Some title) (Some task_id) None []).

Definition TaskActionAgent_delete_task (user_id : string) (task_id : Z)
  : World -> ToolResult * World :=
  execute_tool str "delete_task" (mkKwargs (Some user_id) None (Some task_id) None []).

Definition TaskActionAgent_complete_task (user_id : string) (task_id : Z)
  : World -> ToolResult * World :=
  execute_tool str "complete_task" (mkKwargs (Some user_id) None (Some task_id) None []).

Inductive action := ActionAdd | ActionUpdate | ActionDelete | ActionComplete.

(** [action_map] *)
Definition action_map : gmap string action :=
  <["add" := ActionAdd]> (
  <["update" := ActionUpdate]> (
  <["delete" := ActionDelete]> (
  <["complete" := ActionComplete]> ∅))).

Definition action_method (a : action) : string :=
  match a with
  | ActionAdd => "TaskActionAgent.add_task"
  | ActionUpdate => "TaskActionAgent.update_task"
  | ActionDelete => "TaskActionAgent.delete_task"
  | ActionComplete => "TaskActionAgent.complete_task"
  end.

(** The call of [action_func] with [user_id=user_id] and [**kwargs]: the
    keywords must be those of the method besides [user_id]; otherwise the
    call raises [TypeError], and nothing here catches it. *)
Definition call_action (a : action) (user_id : string) (kw : kwargs) : M ToolResult :=
  match a, kw with
  | ActionAdd, mkKwargs None (Some title) None None [] =>
      lift (TaskActionAgent_add_task user_id title)
  | ActionUpdate, mkKwargs None (Some title) (Some task_id) None [] =>
      lift (TaskActionAgent_update_task user_id task_id title)
  | ActionDelete, mkKwargs None None (Some task_id) None [] =>
      lift (TaskActionAgent_delete_task user_id task_id)
  | ActionComplete, mkKwargs None None (Some task_id) None [] =>
      lift (TaskActionAgent_complete_task user_id task_id)
  | _, _ => raise (TypeError (action_method a) kw)
  end.

(** [TaskActionAgent.execute_action] *)
Definition execute_action (action_name : string) (user_id : string) (kw : kwargs)
  : M ToolResult :=
  match action_map !! action_name with
  | None => ret (failure ("Action '" +:+ action_name +:+ "' not supported"))
  | Some action_func => call_action action_func user_id kw
  end.

(** *** agents/task_query.py: the three fixed listings *)

Definition get_pending_tasks (user_id : string) : World -> ToolResult * World :=
  TaskQueryAgent_list_tasks str user_id "pending".

Definition get_completed_tasks (user_id : string) : World -> ToolResult * World :=
  TaskQueryAgent_list_tasks str user_id "completed".

Definition get_all_tasks (user_id : string) : World -> ToolResult * World :=
  TaskQueryAgent_list_tasks str user_id "all".

End Agents.

(** ** Sample runs *)

Module Samples.

Definition str0 (e : exn) : string :=
  match e with
  | TypeError _ _ => "TypeError"
  | JSONDecodeError => "JSONDecodeError"
  | OperationalError info => info
  | DataError _ => "DataError"
  | IntegrityError _ => "IntegrityError"
  end.

(** The sample texts are all ASCII, where the Unicode case mapping is not
    consulted. *)
Definition unicode_lower0 (s : string) : string := s.

Definition empty_world : World := mkWorld ∅ 1 [] [].

Definition alice_task : Task := mkTask "Buy milk" "pending" "alice" 10 None 10.

Definition alice_world : World := mkWorld {[ 1 := alice_task ]} 2 [] [].

Definition done_task : Task := mkTask "Buy milk" "completed" "alice" 10 (Some 20) 10.

Definition done_world : World := mkWorld {[ 1 := done_task ]} 2 [30] [].

Definition no_kwargs : kwargs := mkKwargs None None None None [].

(** The provider asks for the list of tasks and says nothing itself. *)
Definition list_turn : ResponseMessage :=
  mkResponse None [mkToolCall "list_tasks" (Some no_kwargs)].

(** The provider asks to complete a task that does not exist, then for the
    list of tasks, and says nothing itself. *)
Definition complete_then_list_turn : ResponseMessage :=
  mkResponse None
    [mkToolCall "complete_task" (Some (mkKwargs None None (Some 9) None []));
     mkToolCall "list_tasks" (Some no_kwargs)].


(** The payload claims the tasks of ["alice"]. *)
Definition forged_turn : ResponseMessage :=
  mkResponse None
    [mkToolCall "delete_task" (Some (mkKwargs (Some "alice") None (Some 1) None []));
     mkToolCall "update_task" (Some (mkKwargs (Some "alice") (Some "mine") (Some 1) None []));
     mkToolCall "list_tasks" (Some (mkKwargs (Some "alice") None None None []))].

End Samples.

(** ** Notions used in the statements *)

Definition not_found_message (task_id : Z) : string :=
  "Task with ID " +:+ py_str_int task_id +:+ " not found".

(** The reply text as the specification words it: the [message] field of
    each successful result, then the [message] field of each failed result
    behind ["Error: "], joined by spaces.  A result without a [message] field
    has nothing to contribute. *)
Definition reply_as_specified (results : list ToolResult) : string :=
  String.concat " "
    (omap message (List.filter success results)
     ++ ((fun m => "Error: " +:+ m)
           <$> omap message (List.filter (fun r => negb (success r)) results))).


(** [executed str user_id w calls results w']: starting in [w], each call of
    [calls] in turn went through [execute_tool] with the caller's [user_id],
    giving [results] in the same order and ending in [w']. *)
Inductive executed (str : exn -> string) (user_id : string)
  : World -> list ToolCall -> list ToolResult -> World -> Prop :=
| executed_nil w : executed str user_id w [] [] w
| executed_cons w tool_call function_args rest result w1 results w2 :
    function_arguments tool_call = Some function_args ->
    execute_tool str (function_name tool_call) (set_user_id user_id function_args) w
      = (result, w1) ->
    executed str user_id w1 rest results w2 ->
    executed str user_id w (tool_call :: rest) (result :: results) w2.






(** [same_row user_id o1 o2]: two states of one key of the table that
    [user_id] may not tell apart: the key is free in both, or taken in both,
    and taken by the very same row as soon as the row is a task of
    [user_id]. *)
Definition same_row (user_id : string) (o1 o2 : option Task) : Prop :=
  match o1, o2 with
  | None, None => True
  | Some t1, Some t2 =>
      task_user_id t1 = user_id \/ task_user_id t2 = user_id -> t1 = t2
  | _, _ => False
  end.

(** Two worlds that differ at most in what the tasks of other users
    contain and in which other user owns them. *)
Definition same_view (user_id : string) (w1 w2 : World) : Prop :=
  (forall key, same_row user_id (tasks w1 !! key) (tasks w2 !! key))
  /\ next_id w1 = next_id w2
  /\ clock w1 = clock w2
  /\ faults w1 = faults w2.

(** Every task of another user is in [w'] as it is in [w]. *)
Definition others_untouched (user_id : string) (w w' : World) : Prop :=
  forall key task,
    tasks w !! key = Some task ->
    task_user_id task ≠ user_id ->
    tasks w' !! key = Some task.

(** What a confined step is: it treats worlds of the same view alike, and
    leaves the tasks of other users alone. *)
Definition confined {A} (user_id : string) (step : World -> A * World) : Prop :=
  forall w,
    others_untouched user_id w (step w).2
    /\ forall v, same_view user_id w v ->
                 (step v).1 = (step w).1 /\ same_view user_id (step w).2 (step v).2.


(** A text that a [VARCHAR(255)] column stores as it is. *)
Definition fits_column (s : string) : Prop := (characters s <= max_length)%nat.

(** The last byte of a text. *)
Fixpoint last_character (s : string) : option ascii :=
  match s with
  | EmptyString => None
  | String c EmptyString => Some c
  | String _ s' => last_character s'
  end.


(** The keywords, besides [user_id], of the method an action stands for. *)
Definition action_keywords (a : action) : list string :=
  match a with
  | ActionAdd => ["title"]
  | ActionUpdate => ["title"; "task_id"]
  | ActionDelete => ["task_id"]
  | ActionComplete => ["task_id"]
  end.

(** * Properties *)

(** ** Proof support *)

Ltac unfold_tools :=
  unfold add_task, list_tasks, complete_task, delete_task, update_task.

Ltac unfold_session :=
  unfold session_get, commit_insert, commit_title, commit_completed,
    commit_delete, exec_select, reload, varchar, utcnow.

Ltac unfold_monad :=
  unfold try_except, bind, ret, raise, lift.

Lemma registry_unknown (tool_name : string) :
  tool_name ∉ ["add_task"; "list_tasks"; "complete_task"; "delete_task"; "update_task"] ->
  tools_registry !! tool_name = None.
Proof.
  intros Hnot. unfold tools_registry.
  repeat (rewrite lookup_insert_ne; [| intros <-; apply Hnot; set_solver]).
  apply lookup_empty.
Qed.

(** ** The executor *)

(** C3. For a tool name outside the registry, whatever the keyword
    arguments, [execute_tool] returns the failure result
    ["Tool '<name>' not found"]; it returns a result (its type has no raising
    outcome) and leaves the world as it was: no row is changed, no key is
    drawn, and no statement has met the database connection. *)
Theorem execute_tool_unknown_name (str : exn -> string)
    (tool_name : string) (kw : kwargs) (w : World) :
  tool_name ∉ ["add_task"; "list_tasks"; "complete_task"; "delete_task"; "update_task"] ->
  execute_tool str tool_name kw w
  = (mkResult false (Some ("Tool '" +:+ tool_name +:+ "' not found")) None None None, w).
Proof.
  intros Hnot. unfold execute_tool. rewrite (registry_unknown _ Hnot). reflexivity.
Qed.

Lemma execute_tool_unknown_name_witness :
  ("frobnicate" ∉ ["add_task"; "list_tasks"; "complete_task"; "delete_task"; "update_task"])
  /\ execute_tool Samples.str0 "frobnicate"
       (mkKwargs (Some "bob") None (Some 1) None ["force"]) Samples.alice_world
     = (mkResult false (Some "Tool 'frobnicate' not found") None None None,
        Samples.alice_world).
Proof.
  assert (H : "frobnicate" ∉ ["add_task"; "list_tasks"; "complete_task"; "delete_task"; "update_task"]).
  { intros Hin. repeat (apply elem_of_cons in Hin as [Hin|Hin]; [discriminate Hin|]).
    inversion Hin. }
  split; [exact H|].
  exact (execute_tool_unknown_name Samples.str0 "frobnicate" _ Samples.alice_world H).
Defined.

(** ** Tasks that are missing and tasks of another user *)

(** C2, as the code has it. When the statement that loads the task goes
    through, [complete_task], [delete_task] and [update_task] answer a missing
    task and a task of another user alike with [success = false] and an
    unchanged table, but with different messages: ["Task with ID <id> not
    found"] for the missing task, ["Access denied: You can only modify your
    own tasks"] (["delete"] for [delete_task]) for the task of another
    user. *)
Theorem missing_and_foreign_task_results (str : exn -> string)
    (user_id : string) (task_id : Z) (title : string) (w : World) :
  hd None (faults w) = None ->
  (tasks w !! task_id = None ->
     complete_task str user_id task_id w
       = (failure (not_found_message task_id), consume_fault w)
     /\ delete_task str user_id task_id w
       = (failure (not_found_message task_id), consume_fault w)
     /\ update_task str user_id task_id title w
       = (failure (not_found_message task_id), consume_fault w))
  /\ (forall task, tasks w !! task_id = Some task -> task_user_id task ≠ user_id ->
     complete_task str user_id task_id w
       = (failure "Access denied: You can only modify your own tasks", consume_fault w)
     /\ delete_task str user_id task_id w
       = (failure "Access denied: You can only delete your own tasks", consume_fault w)
     /\ update_task str user_id task_id title w
       = (failure "Access denied: You can only modify your own tasks", consume_fault w)).
Proof.
  intros Hfault. split.
  - intros Hnone. unfold_tools; unfold_session; unfold_monad; unfold statement.
    rewrite Hfault; simpl. rewrite Hnone. auto.
  - intros task Hsome Hother. unfold_tools; unfold_session; unfold_monad; unfold statement.
    rewrite Hfault; simpl. rewrite Hsome.
    destruct (decide (task_user_id task ≠ user_id)) as [_|Hn]; [auto | contradiction].
Qed.

Lemma missing_and_foreign_task_results_witness :
  hd None (faults Samples.alice_world) = None
  /\ update_task Samples.str0 "bob" 1 "Sell milk" Samples.alice_world
     = (failure "Access denied: You can only modify your own tasks",
        consume_fault Samples.alice_world).
Proof.
  split; [reflexivity|].
  refine (proj2 (proj2
    (proj2 (missing_and_foreign_task_results Samples.str0 "bob" 1 "Sell milk"
              Samples.alice_world eq_refl)
       Samples.alice_task eq_refl _))).
  discriminate.
Defined.

(** C2, as the specification states it, fails: for the caller ["bob"] and
    the task id 1, the result in a world without task 1 differs from the
    result in a world where task 1 belongs to ["alice"], for each of the three
    operations. *)
Lemma missing_task_told_apart_from_foreign_task :
  tasks Samples.empty_world !! 1 = None
  /\ tasks Samples.alice_world !! 1 = Some Samples.alice_task
  /\ task_user_id Samples.alice_task ≠ "bob"
  /\ (complete_task Samples.str0 "bob" 1 Samples.empty_world).1
     ≠ (complete_task Samples.str0 "bob" 1 Samples.alice_world).1
  /\ (delete_task Samples.str0 "bob" 1 Samples.empty_world).1
     ≠ (delete_task Samples.str0 "bob" 1 Samples.alice_world).1
  /\ (update_task Samples.str0 "bob" 1 "x" Samples.empty_world).1
     ≠ (update_task Samples.str0 "bob" 1 "x" Samples.alice_world).1.
Proof.
  repeat split; try reflexivity; vm_compute; discriminate.
Qed.

(** ** complete_task *)

Ltac run_tool :=
  unfold_tools; unfold_session; unfold_monad; unfold statement; simpl.

(** C7. On a task of the caller whose status is already ["completed"],
    [complete_task] returns a result (it has no raising outcome), the task is
    still there and its status is still ["completed"]; the result is the
    success result, or the report of a database fault, and it is the success
    result when the connection raises nothing. *)
Theorem complete_task_again (str : exn -> string)
    (user_id : string) (task_id : Z) (task : Task) (w : World) :
  tasks w !! task_id = Some task ->
  task_user_id task = user_id ->
  task_status task = "completed" ->
  let '(result, w') := complete_task str user_id task_id w in
  (exists task', tasks w' !! task_id = Some task'
                 /\ task_status task' = "completed"
                 /\ task_user_id task' = user_id
                 /\ task_title task' = task_title task)
  /\ (result = succeeded ("Successfully marked task '" +:+ task_title task
                          +:+ "' as completed")
      \/ exists info, result = failure ("Error completing task: "
                                        +:+ str (OperationalError info)))
  /\ (faults w = [] -> success result = true).
Proof.
  intros Hget Hown Hstatus. run_tool.
  destruct (hd None (faults w)) as [info|] eqn:F1; simpl.
  { split; [exists task; auto|]. split; [eauto|]. intros E; rewrite E in F1; discriminate. }
  rewrite Hget.
  destruct (decide (task_user_id task ≠ user_id)) as [Hne|_]; [contradiction|]. simpl.
  destruct (hd None (tl (faults w))) as [info|] eqn:F2; simpl.
  { split; [exists task; auto|]. split; [eauto|]. intros E; rewrite E in F2; discriminate. }
  destruct (hd None (tl (tl (faults w)))) as [info|] eqn:F3; simpl.
  - split.
    + rewrite lookup_alter_eq, Hget. simpl. eexists; split; [reflexivity|]. auto.
    + split; [eauto|]. intros E; rewrite E in F3; discriminate.
  - split.
    + rewrite lookup_alter_eq, Hget. simpl. eexists; split; [reflexivity|]. auto.
    + split; [left; reflexivity | reflexivity].
Qed.

Lemma complete_task_again_witness :
  tasks Samples.done_world !! 1 = Some Samples.done_task
  /\ success (complete_task Samples.str0 "alice" 1 Samples.done_world).1 = true.
Proof.
  split; [reflexivity|].
  pose proof (complete_task_again Samples.str0 "alice" 1 Samples.done_task
                Samples.done_world eq_refl eq_refl eq_refl) as H.
  destruct (complete_task Samples.str0 "alice" 1 Samples.done_world) as [result w'].
  apply H. reflexivity.
Defined.

(** ** delete_task *)

Lemma delete_task_success_inv (str : exn -> string) user_id task_id w result w' :
  delete_task str user_id task_id w = (result, w') ->
  success result = true ->
  exists task, tasks w !! task_id = Some task
               /\ task_user_id task = user_id
               /\ tasks w' = delete task_id (tasks w).
Proof.
  run_tool.
  destruct (hd None (faults w)) as [info|]; simpl; [intros [= <- <-]; discriminate|].
  destruct (tasks w !! task_id) as [task|] eqn:Hget; simpl;
    [|intros [= <- <-]; discriminate].
  destruct (decide (task_user_id task ≠ user_id)) as [Hne|Heq]; simpl;
    [intros [= <- <-]; discriminate|].
  destruct (hd None (tl (faults w))) as [info|]; simpl; [intros [= <- <-]; discriminate|].
  intros [= <- <-] _. exists task. split; [reflexivity|]. split; [|reflexivity].
  destruct (decide (task_user_id task = user_id)); [assumption | contradiction].
Qed.

Lemma delete_task_missing (str : exn -> string) user_id task_id w :
  tasks w !! task_id = None ->
  success (delete_task str user_id task_id w).1 = false.
Proof.
  intros Hnone. run_tool.
  destruct (hd None (faults w)) as [info|]; simpl; [reflexivity|].
  rewrite Hnone. reflexivity.
Qed.

Lemma list_tasks_rows (str : exn -> string) user_id status_filter w summary :
  summary ∈ default [] (res_tasks (list_tasks str user_id status_filter w).1) ->
  exists task, tasks w !! sum_id summary = Some task
               /\ task_user_id task = user_id
               /\ summary = format_task (sum_id summary, task).
Proof.
  run_tool.
  destruct (hd None (faults w)) as [info|]; simpl; [intros H; inversion H|].
  intros Hin. apply list_elem_of_fmap in Hin as [[key task] [-> Hin]].
  apply elem_of_map_to_list, map_lookup_filter_Some in Hin as [Hin [Hown _]].
  simpl in *. exists task. auto.
Qed.

(** C8. After a [delete_task] that reported success, the task is gone from
    the table: [get_task_by_id_and_user] finds no task under that id for any
    user, every listing omits the id, and [delete_task] on the same id again
    returns a result with [success = false] (the tool has no raising
    outcome). *)
Theorem delete_task_then_gone (str : exn -> string)
    (user_id : string) (task_id : Z) (w w' : World) (result : ToolResult) :
  delete_task str user_id task_id w = (result, w') ->
  success result = true ->
  tasks w' !! task_id = None
  /\ (forall u task, (get_task_by_id_and_user u task_id w').1 ≠ Ok (Some task))
  /\ (forall u status_filter summary,
        summary ∈ default [] (res_tasks (list_tasks str u status_filter w').1) ->
        sum_id summary ≠ task_id)
  /\ success (delete_task str user_id task_id w').1 = false.
Proof.
  intros Hrun Hok.
  destruct (delete_task_success_inv str _ _ _ _ _ Hrun Hok) as (task & Hget & Hown & Htasks).
  assert (Hgone : tasks w' !! task_id = None) by (rewrite Htasks; apply lookup_delete_eq).
  split; [exact Hgone|]. split; [|split].
  - intros u t. unfold get_task_by_id_and_user; unfold_monad; unfold statement.
    destruct (hd None (faults w')); simpl; [discriminate|].
    rewrite Hgone. discriminate.
  - intros u status_filter summary Hin Heq.
    destruct (list_tasks_rows str _ _ _ _ Hin) as (t & Ht & _). congruence.
  - apply delete_task_missing, Hgone.
Qed.

Lemma delete_task_then_gone_witness :
  success (delete_task Samples.str0 "alice" 1 Samples.alice_world).1 = true
  /\ success (delete_task Samples.str0 "alice" 1
                (delete_task Samples.str0 "alice" 1 Samples.alice_world).2).1 = false.
Proof.
  split; [reflexivity|].
  exact (proj2 (proj2 (proj2
    (delete_task_then_gone Samples.str0 "alice" 1 Samples.alice_world
       (delete_task Samples.str0 "alice" 1 Samples.alice_world).2
       (delete_task Samples.str0 "alice" 1 Samples.alice_world).1
       eq_refl eq_refl)))).
Defined.

(** ** update_task *)



(** ** Titles that reach the table *)

(** C9, at the failing input. The empty title does not pass
    [Field(min_length=1, max_length=255)], yet [add_task] stores a task with
    the empty title and reports success, and [update_task] replaces the title
    of a task by the empty title and reports success. *)
Theorem tools_store_empty_title :
  valid_title "" = false
  /\ (let '(result, w') := add_task Samples.str0 "bob" "" Samples.empty_world in
      success result = true
      /\ res_task_id result = Some 1
      /\ task_title <$> tasks w' !! 1 = Some "")
  /\ (let '(result, w') := update_task Samples.str0 "alice" 1 "" Samples.alice_world in
      success result = true
      /\ task_title <$> tasks w' !! 1 = Some "").
Proof. vm_compute. repeat split. Qed.

(** ** The orchestrator: reply text *)

Lemma run_tool_calls_names (str : exn -> string) user_id calls :
  forall w done w',
    run_tool_calls str user_id calls w = (Ok done, w') ->
    done.*1 = function_name <$> calls.
Proof.
  induction calls as [|tool_call rest IH]; intros w done w'; simpl.
  - unfold ret. intros [= <- <-]. reflexivity.
  - unfold bind at 1.
    destruct (json_loads (function_arguments tool_call) w) as [[function_args|e] w1];
      [|discriminate].
    unfold bind at 1.
    destruct (invoke_execute_tool str _ _ w1) as [[result|e] w2]; [|discriminate].
    unfold bind at 1.
    destruct (run_tool_calls str user_id rest w2) as [[done'|e] w3] eqn:Hrest;
      [|discriminate].
    unfold ret. intros [= <- <-]. simpl. f_equal. eapply IH, Hrest.
Qed.

Lemma process_message_inv (str : exn -> string) user_id response_message w turn w' :
  process_message str user_id response_message w = (Ok turn, w') ->
  exists done,
    run_tool_calls str user_id (tool_calls response_message) w = (Ok done, w')
    /\ turn = mkTurn (final_response (content response_message) (done.*2))
                     (done.*1) (done.*2).
Proof.
  unfold process_message, bind, ret.
  destruct (run_tool_calls str user_id (tool_calls response_message) w)
    as [[done|e] w1]; [|discriminate].
  intros [= <- <-]. eauto.
Qed.

(** C5, as the code has it. In a turn that runs to its end: content that
    is not empty is the reply, verbatim; without content (none, or the empty
    text) and with at least one tool call, the reply joins by spaces the
    [message] of each successful result, or ["Operation completed
    successfully"] for a successful result without [message], followed by
    ["Error: "] and the [message] (["Operation failed"] without one) of each
    failed result, each group in call order; without content and without
    tool calls the reply is ["I've processed your request."]. *)
Theorem reply_of_turn (str : exn -> string)
    (user_id : string) (response_message : ResponseMessage)
    (w w' : World) (turn : TurnResult) :
  process_message str user_id response_message w = (Ok turn, w') ->
  (forall c s, content response_message = Some (String c s) ->
               response turn = String c s)
  /\ (content response_message = None \/ content response_message = Some "" ->
      tool_calls response_message ≠ [] ->
      response turn
      = String.concat " "
          (((fun r => default "Operation completed successfully" (message r))
              <$> List.filter success (tool_results turn))
           ++ ((fun r => "Error: " +:+ default "Operation failed" (message r))
              <$> List.filter (fun r => negb (success r)) (tool_results turn))))
  /\ (content response_message = None \/ content response_message = Some "" ->
      tool_calls response_message = [] ->
      response turn = "I've processed your request.").
Proof.
  intros Hrun. apply process_message_inv in Hrun as (done & Hdone & ->). simpl.
  pose proof (run_tool_calls_names str _ _ _ _ _ Hdone) as Hnames.
  split; [|split].
  - intros c s ->. reflexivity.
  - intros Hcontent Hcalls.
    assert (Hresults : done.*2 ≠ []).
    { destruct done as [|d done]; [|discriminate].
      destruct (tool_calls response_message); [contradiction | discriminate]. }
    unfold final_response.
    destruct Hcontent as [-> | ->]; destruct (done.*2); try contradiction; reflexivity.
  - intros Hcontent Hcalls. rewrite Hcalls in Hnames.
    destruct done as [|d done]; [|discriminate].
    destruct Hcontent as [-> | ->]; reflexivity.
Qed.

Lemma reply_of_turn_witness :
  (process_message Samples.str0 "alice" Samples.complete_then_list_turn
     Samples.alice_world).1
  = Ok (mkTurn "Operation completed successfully Error: Task with ID 9 not found"
          ["complete_task"; "list_tasks"]
          [failure "Task with ID 9 not found";
           mkResult true None None (Some [mkSummary 1 "Buy milk" "pending"]) (Some 1%nat)])
  /\ response (mkTurn "Operation completed successfully Error: Task with ID 9 not found"
          ["complete_task"; "list_tasks"]
          [failure "Task with ID 9 not found";
           mkResult true None None (Some [mkSummary 1 "Buy milk" "pending"]) (Some 1%nat)])
     = "Operation completed successfully Error: Task with ID 9 not found".
Proof.
  split; [reflexivity|].
  refine (proj1 (proj2
    (reply_of_turn Samples.str0 "alice" Samples.complete_then_list_turn
       Samples.alice_world
       (process_message Samples.str0 "alice" Samples.complete_then_list_turn
          Samples.alice_world).2 _ eq_refl)) (or_introl eq_refl) _).
  discriminate.
Defined.

(** C5, as the specification states it, fails: in a turn without content
    whose one tool call is a successful [list_tasks], the result has no
    [message] field, and the reply is ["Operation completed successfully"],
    which is not the text made of the [message] fields. *)
Lemma reply_is_not_made_of_message_fields :
  exists turn w',
    process_message Samples.str0 "alice" Samples.list_turn Samples.alice_world
      = (Ok turn, w')
    /\ content Samples.list_turn = None
    /\ (success <$> tool_results turn) = [true]
    /\ (message <$> tool_results turn) = [None]
    /\ response turn = "Operation completed successfully"
    /\ reply_as_specified (tool_results turn) = ""
    /\ response turn ≠ reply_as_specified (tool_results turn).
Proof.
  eexists _, _. split; [vm_compute; reflexivity|].
  repeat split; try reflexivity. vm_compute. discriminate.
Qed.

(** ** The query agent: search *)













Lemma TaskQueryAgent_list_tasks_eq (str : exn -> string) user_id status_filter w :
  TaskQueryAgent_list_tasks str user_id status_filter w
  = list_tasks str user_id status_filter w.
Proof.
  unfold TaskQueryAgent_list_tasks, execute_tool.
  change (tools_registry !! "list_tasks") with (Some ListTasks).
  unfold try_except, call_tool, lift. simpl.
  destruct (list_tasks str user_id status_filter w). reflexivity.
Qed.




(** The same on a table, by computation; a term that occurs in no title finds
    nothing. *)
Example search_ignores_case :
  (search_tasks Samples.str0 Samples.unicode_lower0 "alice" "MILK" "all"
     Samples.alice_world).1
    = mkResult true None None (Some [mkSummary 1 "Buy milk" "pending"]) (Some 1%nat)
  /\ (search_tasks Samples.str0 Samples.unicode_lower0 "alice" "tea" "all"
        Samples.alice_world).1
    = mkResult true None None (Some []) (Some 0%nat).
Proof. split; vm_compute; reflexivity. Qed.

(** ** The executor and the orchestrator: faults of a tool call *)

Lemma registry_lookup (f : tool) : tools_registry !! tool_name_of f = Some f.
Proof. destruct f; reflexivity. Qed.

(** The tools catch what their bodies raise, so the only exception that
    leaves the call of a tool is the [TypeError] of binding its keywords,
    raised before the body has touched the world. *)
Lemma call_tool_raises (str : exn -> string) f kw w e w1 :
  call_tool str f kw w = (Raised e, w1) ->
  e = TypeError (tool_name_of f) kw /\ w1 = w.
Proof.
  unfold call_tool, lift, raise.
  destruct f, kw as [[u|] [t|] [i|] [sf|] [|o others]]; simpl;
    try (intros [= <- <-]; split; reflexivity);
    intros Hrun; case_match; discriminate.
Qed.





(** So does a payload that does not decode: [json.loads] raises in
    [process_message] itself, outside every [try]; the turn ends there, after
    the calls before it have had their effect. *)
Lemma undecodable_payload_aborts_turn :
  process_message Samples.str0 "bob"
    (mkResponse None [mkToolCall "add_task" (Some (mkKwargs None (Some "walk dog") None None []));
                      mkToolCall "list_tasks" None])
    Samples.empty_world
  = (Raised JSONDecodeError,
     mkWorld {[ 1 := mkTask "walk dog" "pending" "bob" 0 None 0 ]} 2 [] []).
Proof. vm_compute. reflexivity. Qed.

(** ** Authorization: the caller and the tasks of other users *)

Lemma same_row_refl user_id o : same_row user_id o o.
Proof. destruct o; simpl; auto. Qed.

Lemma same_view_rows user_id w v key :
  same_view user_id w v ->
  match tasks w !! key with
  | None => tasks v !! key = None
  | Some task =>
      if decide (task_user_id task ≠ user_id)
      then exists task', tasks v !! key = Some task' /\ task_user_id task' ≠ user_id
      else tasks v !! key = Some task
  end.
Proof.
  intros (Hrows & _). specialize (Hrows key). unfold same_row in Hrows.
  destruct (tasks w !! key) as [t1|], (tasks v !! key) as [t2|]; try contradiction; auto.
  destruct (decide (task_user_id t1 ≠ user_id)) as [Hne|Heq].
  - exists t2. split; [reflexivity|]. intros Heq. apply Hne.
    rewrite (Hrows (or_intror Heq)). exact Heq.
  - f_equal. symmetry. apply Hrows. left.
    destruct (decide (task_user_id t1 = user_id)); [assumption | contradiction].
Qed.

Lemma others_untouched_refl user_id w : others_untouched user_id w w.
Proof. intros key task H _. exact H. Qed.

Lemma others_untouched_trans user_id w1 w2 w3 :
  others_untouched user_id w1 w2 ->
  others_untouched user_id w2 w3 ->
  others_untouched user_id w1 w3.
Proof. intros H12 H23 key task H Hne. eauto. Qed.

Lemma others_untouched_same_tasks user_id w w' :
  tasks w' = tasks w -> others_untouched user_id w w'.
Proof. intros E key task H _. rewrite E. exact H. Qed.

Lemma same_row_fmap user_id (f : Task -> Task) o1 o2 :
  (forall t, task_user_id (f t) = task_user_id t) ->
  same_row user_id o1 o2 ->
  same_row user_id (f <$> o1) (f <$> o2).
Proof.
  intros Hf. destruct o1 as [t1|], o2 as [t2|]; simpl; auto.
  rewrite !Hf. intros H Hown. f_equal. auto.
Qed.

Lemma complete_task_confined (str : exn -> string) user_id task_id :
  confined user_id (complete_task str user_id task_id).
Proof.
  intros w. split.
  - run_tool.
    destruct (hd None (faults w)) as [info|]; simpl;
      [apply others_untouched_same_tasks; reflexivity|].
    destruct (tasks w !! task_id) as [task|] eqn:Hget; simpl;
      [|apply others_untouched_same_tasks; reflexivity].
    destruct (decide (task_user_id task ≠ user_id)) as [Hne|Heq]; simpl;
      [apply others_untouched_same_tasks; reflexivity|].
    destruct (hd None (tl (faults w))) as [info|]; simpl;
      [apply others_untouched_same_tasks; reflexivity|].
    assert (Hframe : forall f key t, tasks w !! key = Some t -> task_user_id t ≠ user_id ->
                     alter f task_id (tasks w) !! key = Some t).
    { intros f key t Hkey Hne. rewrite lookup_alter_ne; [exact Hkey|].
      intros <-. rewrite Hget in Hkey. injection Hkey as ->. contradiction. }
    destruct (hd None (tl (tl (faults w)))) as [info|]; simpl;
      intros key t Hkey Hne; simpl; auto.
  - intros v Hview. pose proof (same_view_rows _ _ _ task_id Hview) as Hrow.
    destruct Hview as (Hrows & Hid & Hclock & Hfaults).
    destruct w as [tw nw cw fw], v as [tv nv cv fv]; simpl in *; subst nv cv fv.
    run_tool.
    destruct (hd None fw) as [info|]; simpl.
    { split; [reflexivity|]. repeat split; simpl; auto. }
    destruct (tw !! task_id) as [task|] eqn:Hget; simpl.
    2:{ rewrite Hrow. simpl. split; [reflexivity|]. repeat split; simpl; auto. }
    destruct (decide (task_user_id task ≠ user_id)) as [Hne|Heq]; simpl.
    { destruct Hrow as (task' & -> & Hne'). simpl.
      destruct (decide (task_user_id task' ≠ user_id)); [|contradiction]. simpl.
      split; [reflexivity|]. repeat split; simpl; auto. }
    rewrite Hrow. simpl.
    destruct (decide (task_user_id task ≠ user_id)); [contradiction|]. simpl.
    destruct (hd None (tl fw)) as [info|]; simpl.
    { split; [reflexivity|]. repeat split; simpl; auto. }
    assert (Hview' : forall key, same_row user_id
               (alter (set_completed (hd 0 cw)) task_id tw !! key)
               (alter (set_completed (hd 0 cw)) task_id tv !! key)).
    { intros key. rewrite !lookup_alter. case_decide; [|apply Hrows].
      apply same_row_fmap; [reflexivity | apply Hrows]. }
    destruct (hd None (tl (tl fw))) as [info|]; simpl;
      (split; [reflexivity|]); repeat split; simpl; auto.
Qed.

Ltac same_worlds := split; [reflexivity|]; repeat split; simpl; auto.

Lemma delete_task_confined (str : exn -> string) user_id task_id :
  confined user_id (delete_task str user_id task_id).
Proof.
  intros w. split.
  - run_tool.
    destruct (hd None (faults w)) as [info|]; simpl;
      [apply others_untouched_same_tasks; reflexivity|].
    destruct (tasks w !! task_id) as [task|] eqn:Hget; simpl;
      [|apply others_untouched_same_tasks; reflexivity].
    destruct (decide (task_user_id task ≠ user_id)) as [Hne|Heq]; simpl;
      [apply others_untouched_same_tasks; reflexivity|].
    destruct (hd None (tl (faults w))) as [info|]; simpl;
      [apply others_untouched_same_tasks; reflexivity|].
    intros key t Hkey Hne. simpl. rewrite lookup_delete_ne; [exact Hkey|].
    intros <-. rewrite Hget in Hkey. injection Hkey as ->. contradiction.
  - intros v Hview. pose proof (same_view_rows _ _ _ task_id Hview) as Hrow.
    destruct Hview as (Hrows & Hid & Hclock & Hfaults).
    destruct w as [tw nw cw fw], v as [tv nv cv fv]; simpl in *; subst nv cv fv.
    run_tool.
    destruct (hd None fw) as [info|]; simpl; [same_worlds|].
    destruct (tw !! task_id) as [task|] eqn:Hget; simpl.
    2:{ rewrite Hrow. simpl. same_worlds. }
    destruct (decide (task_user_id task ≠ user_id)) as [Hne|Heq]; simpl.
    { destruct Hrow as (task' & -> & Hne'). simpl.
      destruct (decide (task_user_id task' ≠ user_id)); [|contradiction]. simpl.
      same_worlds. }
    rewrite Hrow. simpl.
    destruct (decide (task_user_id task ≠ user_id)); [contradiction|]. simpl.
    destruct (hd None (tl fw)) as [info|]; simpl; [same_worlds|].
    split; [reflexivity|]. repeat split; simpl; auto.
    intros key. rewrite !lookup_delete. case_decide; [exact I | apply Hrows].
Qed.

Lemma update_task_confined (str : exn -> string) user_id task_id title :
  confined user_id (update_task str user_id task_id title).
Proof.
  intros w. split.
  - run_tool.
    destruct (hd None (faults w)) as [info|]; simpl;
      [apply others_untouched_same_tasks; reflexivity|].
    destruct (tasks w !! task_id) as [task|] eqn:Hget; simpl;
      [|apply others_untouched_same_tasks; reflexivity].
    destruct (decide (task_user_id task ≠ user_id)) as [Hne|Heq]; simpl;
      [apply others_untouched_same_tasks; reflexivity|].
    destruct (hd None (tl (faults w))) as [info|]; simpl;
      [apply others_untouched_same_tasks; reflexivity|].
    destruct (characters title <=? max_length)%nat; simpl;
      [|apply others_untouched_same_tasks; reflexivity].
    intros key t Hkey Hne. simpl. rewrite lookup_alter_ne; [exact Hkey|].
    intros <-. rewrite Hget in Hkey. injection Hkey as ->. contradiction.
  - intros v Hview. pose proof (same_view_rows _ _ _ task_id Hview) as Hrow.
    destruct Hview as (Hrows & Hid & Hclock & Hfaults).
    destruct w as [tw nw cw fw], v as [tv nv cv fv]; simpl in *; subst nv cv fv.
    run_tool.
    destruct (hd None fw) as [info|]; simpl; [same_worlds|].
    destruct (tw !! task_id) as [task|] eqn:Hget; simpl.
    2:{ rewrite Hrow. simpl. same_worlds. }
    destruct (decide (task_user_id task ≠ user_id)) as [Hne|Heq]; simpl.
    { destruct Hrow as (task' & -> & Hne'). simpl.
      destruct (decide (task_user_id task' ≠ user_id)); [|contradiction]. simpl.
      same_worlds. }
    rewrite Hrow. simpl.
    destruct (decide (task_user_id task ≠ user_id)); [contradiction|]. simpl.
    destruct (hd None (tl fw)) as [info|]; simpl; [same_worlds|].
    destruct (characters title <=? max_length)%nat; simpl; [|same_worlds].
    split; [reflexivity|]. repeat split; simpl; auto.
    intros key. rewrite !lookup_alter. case_decide; [|apply Hrows].
    apply same_row_fmap; [reflexivity | apply Hrows].
Qed.

Lemma add_task_confined (str : exn -> string) user_id title :
  confined user_id (add_task str user_id title).
Proof.
  intros w. split.
  - run_tool.
    destruct (hd None (faults w)) as [info|]; simpl;
      [apply others_untouched_same_tasks; reflexivity|].
    destruct (characters title <=? max_length)%nat; simpl;
      [|apply others_untouched_same_tasks; reflexivity].
    destruct (characters user_id <=? max_length)%nat; simpl;
      [|apply others_untouched_same_tasks; reflexivity].
    destruct (tasks w !! next_id w) as [task|] eqn:Hget; simpl;
      [apply others_untouched_same_tasks; reflexivity|].
    assert (Hframe : forall t0 key t, tasks w !! key = Some t ->
                     <[next_id w := t0]> (tasks w) !! key = Some t).
    { intros t0 key t Hkey. rewrite lookup_insert_ne; [exact Hkey|].
      intros <-. congruence. }
    destruct (hd None (tl (faults w))) as [info|]; simpl;
      intros key t Hkey Hne; simpl; auto.
  - intros v Hview. pose proof (same_view_rows _ _ _ (next_id w) Hview) as Hrow.
    destruct Hview as (Hrows & Hid & Hclock & Hfaults).
    destruct w as [tw nw cw fw], v as [tv nv cv fv]; simpl in *; subst nv cv fv.
    run_tool.
    destruct (hd None fw) as [info|]; simpl; [same_worlds|].
    destruct (characters title <=? max_length)%nat; simpl; [|same_worlds].
    destruct (characters user_id <=? max_length)%nat; simpl; [|same_worlds].
    destruct (tw !! nw) as [task|] eqn:Hget; simpl.
    { assert (Htaken : exists task', tv !! nw = Some task').
      { destruct (decide (task_user_id task ≠ user_id)); [|eauto].
        destruct Hrow as (task' & -> & _). eauto. }
      destruct Htaken as (task' & ->). simpl. same_worlds. }
    rewrite Hrow. simpl.
    assert (Hview' : forall t0 key, same_row user_id
               (<[nw := t0]> tw !! key) (<[nw := t0]> tv !! key)).
    { intros t0 key. rewrite !lookup_insert. case_decide; [|apply Hrows].
      simpl. auto. }
    destruct (hd None (tl fw)) as [info|]; simpl;
      (split; [reflexivity|]); repeat split; simpl; auto.
Qed.

Lemma list_tasks_confined (str : exn -> string) user_id status_filter :
  confined user_id (list_tasks str user_id status_filter).
Proof.
  intros w. split.
  - run_tool.
    destruct (hd None (faults w)) as [info|]; simpl;
      apply others_untouched_same_tasks; reflexivity.
  - intros v Hview.
    assert (Hsel : filter (selected user_id status_filter) (tasks v)
                   = filter (selected user_id status_filter) (tasks w)).
    { apply map_filter_strong_ext_1. intros key task.
      pose proof (same_view_rows _ _ _ key Hview) as Hrow.
      destruct Hview as (Hrows & _). specialize (Hrows key).
      unfold selected. simpl. split; intros [[Hown Hst] Hget]; (split; [auto|]).
      - rewrite Hget in Hrows. destruct (tasks w !! key) as [t|]; [|contradiction].
        simpl in Hrows. f_equal. apply Hrows. auto.
      - rewrite Hget in Hrows. destruct (tasks v !! key) as [t|]; [|contradiction].
        simpl in Hrows. f_equal. symmetry. apply Hrows. auto. }
    destruct Hview as (Hrows & Hid & Hclock & Hfaults).
    destruct w as [tw nw cw fw], v as [tv nv cv fv]; simpl in *; subst nv cv fv.
    run_tool.
    destruct (hd None fw) as [info|]; simpl; [same_worlds|].
    rewrite Hsel. same_worlds.
Qed.

Lemma same_view_refl user_id w : same_view user_id w w.
Proof. repeat split. intros key. apply same_row_refl. Qed.

Lemma confined_ret {A} user_id (a : A) : confined user_id (ret a).
Proof.
  intros w. split; [apply others_untouched_refl|]. intros v Hview. split; [reflexivity | exact Hview].
Qed.

Lemma confined_raise {A} user_id (e : exn) : confined user_id (@raise A e).
Proof.
  intros w. split; [apply others_untouched_refl|]. intros v Hview. split; [reflexivity | exact Hview].
Qed.

Lemma confined_bind {A B} user_id (m : M A) (k : A -> M B) :
  confined user_id m ->
  (forall a, confined user_id (k a)) ->
  confined user_id (bind m k).
Proof.
  intros Hm Hk w. destruct (Hm w) as [Hframe Hview]. unfold bind. split.
  - destruct (m w) as [[a|e] w1]; simpl in *; [|exact Hframe].
    eapply others_untouched_trans; [exact Hframe | apply Hk].
  - intros v Hwv. destruct (Hview v Hwv) as [Hout Hnext].
    destruct (m w) as [[a|e] w1], (m v) as [[a'|e'] v1]; simpl in *; try discriminate.
    + injection Hout as ->. destruct (Hk a w1) as [_ Hka]. exact (Hka v1 Hnext).
    + injection Hout as ->. split; [reflexivity | exact Hnext].
Qed.

Lemma confined_lift {A} user_id (step : World -> A * World) :
  confined user_id step -> confined user_id (lift step).
Proof.
  intros Hstep w. destruct (Hstep w) as [Hframe Hview]. unfold lift. split.
  - destruct (step w); exact Hframe.
  - intros v Hwv. destruct (Hview v Hwv) as [Hout Hnext].
    destruct (step w), (step v); simpl in *. split; [congruence | exact Hnext].
Qed.

Lemma confined_try_except {A} user_id (body : M A) (handler : exn -> A) :
  confined user_id body -> confined user_id (try_except body handler).
Proof.
  intros Hbody w. destruct (Hbody w) as [Hframe Hview]. unfold try_except. split.
  - destruct (body w) as [[a|e] w1]; exact Hframe.
  - intros v Hwv. destruct (Hview v Hwv) as [Hout Hnext].
    destruct (body w) as [[a|e] w1], (body v) as [[a'|e'] v1]; simpl in *;
      try discriminate; split; congruence || exact Hnext.
Qed.

Lemma call_tool_confined (str : exn -> string) user_id f kw :
  kw_user_id kw = Some user_id ->
  confined user_id (call_tool str f kw).
Proof.
  destruct kw as [u t i sf others]. simpl. intros ->. unfold call_tool.
  destruct f, t as [t|], i as [i|], sf as [sf|], others as [|o others];
    try apply confined_raise; apply confined_lift;
    auto using add_task_confined, list_tasks_confined, complete_task_confined,
      delete_task_confined, update_task_confined.
Qed.

Lemma execute_tool_confined (str : exn -> string) user_id tool_name kw :
  kw_user_id kw = Some user_id ->
  confined user_id (execute_tool str tool_name kw).
Proof.
  intros Hkw. unfold execute_tool.
  destruct (tools_registry !! tool_name) as [f|].
  - apply confined_try_except, call_tool_confined, Hkw.
  - intros w. split; [apply others_untouched_refl|].
    intros v Hview. split; [reflexivity | exact Hview].
Qed.

Lemma run_tool_calls_confined (str : exn -> string) user_id calls :
  confined user_id (run_tool_calls str user_id calls).
Proof.
  induction calls as [|tool_call rest IH]; simpl; [apply confined_ret|].
  apply confined_bind.
  { unfold json_loads. destruct (function_arguments tool_call);
      [apply confined_ret | apply confined_raise]. }
  intros function_args. apply confined_bind.
  { unfold invoke_execute_tool. destruct (decide _); [apply confined_raise|].
    apply confined_lift, execute_tool_confined. reflexivity. }
  intros result. apply confined_bind; [exact IH|].
  intros done. apply confined_ret.
Qed.

Lemma process_message_confined (str : exn -> string) user_id response_message :
  confined user_id (process_message str user_id response_message).
Proof.
  unfold process_message. apply confined_bind; [apply run_tool_calls_confined|].
  intros done. apply confined_ret.
Qed.

Lemma run_tool_calls_executed (str : exn -> string) user_id calls :
  forall w done w',
    run_tool_calls str user_id calls w = (Ok done, w') ->
    executed str user_id w calls (done.*2) w'.
Proof.
  induction calls as [|tool_call rest IH]; intros w done w'; simpl.
  - unfold ret. intros [= <- <-]. constructor.
  - unfold bind at 1. unfold json_loads.
    destruct (function_arguments tool_call) as [function_args|] eqn:Hargs;
      [|discriminate].
    unfold ret at 1. unfold bind at 1. unfold invoke_execute_tool.
    destruct (decide _); [discriminate|]. unfold lift.
    destruct (execute_tool str (function_name tool_call)
                (set_user_id user_id function_args) w) as [result w1] eqn:Hexec.
    unfold bind at 1.
    destruct (run_tool_calls str user_id rest w1) as [[done'|e] w2] eqn:Hrest;
      [|discriminate].
    unfold ret. intros [= <- <-]. simpl. econstructor; eauto.
Qed.

(** C1. A turn processed for the caller [user_id], whatever the provider
    asked for and whatever [user_id] its payloads claim: every tool call that
    is executed carries the caller's id; every task of another user is in the
    table afterwards exactly as it was before; and the outcome of the turn
    (reply, tool names, tool results, or the exception) is the same in every
    world that differs only in what the tasks of other users contain, so it
    reveals nothing of them. The three tools that take a task id refuse a
    task of another user. *)
Theorem caller_confined_to_own_tasks (str : exn -> string)
    (user_id : string) (response_message : ResponseMessage) (w : World) :
  let '(out, w') := process_message str user_id response_message w in
  (forall turn, out = Ok turn ->
     executed str user_id w (tool_calls response_message) (tool_results turn) w')
  /\ (forall kw, kw_user_id (set_user_id user_id kw) = Some user_id)
  /\ others_untouched user_id w w'
  /\ (forall v, same_view user_id w v ->
        let '(out_v, v') := process_message str user_id response_message v in
        out_v = out /\ same_view user_id w' v')
  /\ (forall task_id task title,
        tasks w !! task_id = Some task ->
        task_user_id task ≠ user_id ->
        success (complete_task str user_id task_id w).1 = false
        /\ success (delete_task str user_id task_id w).1 = false
        /\ success (update_task str user_id task_id title w).1 = false).
Proof.
  pose proof (process_message_confined str user_id response_message w) as [Hframe Hview].
  destruct (process_message str user_id response_message w) as [out w'] eqn:Hrun.
  simpl in *. split; [|split; [|split; [|split]]].
  - intros turn ->. apply process_message_inv in Hrun as (done & Hdone & ->).
    simpl. eapply run_tool_calls_executed, Hdone.
  - reflexivity.
  - exact Hframe.
  - intros v Hwv. specialize (Hview v Hwv).
    destruct (process_message str user_id response_message v). exact Hview.
  - intros task_id task title Hget Hne. run_tool.
    destruct (hd None (faults w)); simpl; [auto|]. rewrite Hget.
    destruct (decide (task_user_id task ≠ user_id)); [auto | contradiction].
Qed.

(** A forged turn: the provider asks, for the caller ["bob"], to delete and
    to rename task 1 and to list the tasks, each time with ["alice"] as
    [user_id].  The task of ["alice"] stays, and ["bob"] is shown his own
    (empty) list. *)
Example forged_turn_is_harmless :
  exists turn w',
    process_message Samples.str0 "bob" Samples.forged_turn Samples.alice_world
      = (Ok turn, w')
    /\ tasks w' !! 1 = Some Samples.alice_task
    /\ (success <$> tool_results turn) = [false; false; true]
    /\ (res_tasks <$> tool_results turn) = [None; None; Some []].
Proof. eexists _, _. split; [vm_compute; reflexivity|]. repeat split. Qed.

(** * Further properties of the tool layer *)

(** ** add_task *)

Lemma add_task_success_inv (str : exn -> string) user_id title w result w' :
  add_task str user_id title w = (result, w') ->
  success result = true ->
  result = mkResult true (Some ("Successfully added task '" +:+ title +:+ "'"))
             (Some (next_id w)) None None
  /\ tasks w !! next_id w = None
  /\ tasks w' = <[next_id w := mkTask title "pending" user_id
                                  (hd 0 (clock w)) None (hd 0 (tl (clock w)))]> (tasks w)
  /\ next_id w' = next_id w + 1
  /\ clock w' = tl (tl (clock w))
  /\ faults w' = tl (tl (faults w))
  /\ (characters title <= max_length)%nat
  /\ (characters user_id <= max_length)%nat.
Proof.
  run_tool.
  destruct (hd None (faults w)) as [info|]; simpl; [intros [= <- <-]; discriminate|].
  destruct (characters title <=? max_length)%nat eqn:Htitle; simpl;
    [|intros [= <- <-]; discriminate].
  destruct (characters user_id <=? max_length)%nat eqn:Huser; simpl;
    [|intros [= <- <-]; discriminate].
  destruct (tasks w !! next_id w) as [task|] eqn:Hfree; simpl;
    [intros [= <- <-]; discriminate|].
  destruct (hd None (tl (faults w))) as [info|]; simpl;
    [intros [= <- <-]; discriminate|].
  intros [= <- <-] _. apply Nat.leb_le in Htitle, Huser. simpl. auto 10.
Qed.

(** X1. For a title and a [user_id] of at most 255 characters, which the
    columns store as they are: an [add_task] that reported success has
    inserted one row, under the key it returns, which was free before: the
    row has the given title, the status ["pending"], the caller as owner, and
    the two clock readings as [created_at] and [updated_at]; every other row
    is as it was, and the key sequence has moved on by one. *)
Theorem add_task_inserts_one_row (str : exn -> string)
    (user_id title : string) (w w' : World) (result : ToolResult) :
  fits_column title ->
  fits_column user_id ->
  add_task str user_id title w = (result, w') ->
  success result = true ->
  exists key,
    res_task_id result = Some key
    /\ tasks w !! key = None
    /\ tasks w' !! key
       = Some (mkTask title "pending" user_id (hd 0 (clock w)) None (hd 0 (tl (clock w))))
    /\ (forall other, other ≠ key -> tasks w' !! other = tasks w !! other)
    /\ next_id w' = key + 1.
Proof.
  intros _ _ Hrun Hok.
  destruct (add_task_success_inv str _ _ _ _ _ Hrun Hok)
    as (-> & Hfree & Htasks & Hnext & _).
  exists (next_id w). rewrite Htasks. simpl.
  split; [reflexivity|]. split; [exact Hfree|]. split; [apply lookup_insert_eq|].
  split; [|exact Hnext]. intros other Hother. apply lookup_insert_ne. congruence.
Qed.

Lemma add_task_inserts_one_row_witness :
  fits_column "walk dog"
  /\ fits_column "bob"
  /\ success (add_task Samples.str0 "bob" "walk dog" Samples.alice_world).1 = true
  /\ exists key,
       res_task_id (add_task Samples.str0 "bob" "walk dog" Samples.alice_world).1 = Some key
       /\ tasks (add_task Samples.str0 "bob" "walk dog" Samples.alice_world).2 !! key
          = Some (mkTask "walk dog" "pending" "bob" 0 None 0).
Proof.
  assert (Htitle : fits_column "walk dog") by (vm_compute; lia).
  assert (Huser : fits_column "bob") by (vm_compute; lia).
  split; [exact Htitle|]. split; [exact Huser|]. split; [reflexivity|].
  destruct (add_task_inserts_one_row Samples.str0 "bob" "walk dog" Samples.alice_world
              (add_task Samples.str0 "bob" "walk dog" Samples.alice_world).2
              (add_task Samples.str0 "bob" "walk dog" Samples.alice_world).1
              Htitle Huser eq_refl eq_refl) as (key & Hkey & _ & Hrow & _).
  exists key. split; [exact Hkey | exact Hrow].
Defined.

(** ** list_tasks *)

Lemma list_tasks_ok (str : exn -> string) user_id status_filter w :
  hd None (faults w) = None ->
  list_tasks str user_id status_filter w
  = (mkResult true None None
       (Some (format_task <$> map_to_list (filter (selected user_id status_filter) (tasks w))))
       (Some (length (format_task <$> map_to_list
                        (filter (selected user_id status_filter) (tasks w))))),
     consume_fault w).
Proof. intros Hfault. run_tool. rewrite Hfault. reflexivity. Qed.

Lemma format_task_id (row : Z * Task) : sum_id (format_task row) = row.1.
Proof. reflexivity. Qed.

Lemma listing_ids_NoDup (m : gmap Z Task) :
  NoDup (sum_id <$> (format_task <$> map_to_list m)).
Proof.
  rewrite <- list_fmap_compose.
  replace (sum_id ∘ format_task) with (@fst Z Task) by reflexivity.
  apply NoDup_fst_map_to_list.
Qed.

Lemma listing_member (user_id status_filter : string) (m : gmap Z Task)
    (summary : TaskSummary) :
  summary ∈ format_task <$> map_to_list (filter (selected user_id status_filter) m)
  <-> exists task,
        m !! sum_id summary = Some task
        /\ summary = mkSummary (sum_id summary) (task_title task) (task_status task)
        /\ task_user_id task = user_id
        /\ (status_filter = "pending" \/ status_filter = "completed" ->
            task_status task = status_filter).
Proof.
  rewrite list_elem_of_fmap. split.
  - intros ([key task] & -> & Hin).
    apply elem_of_map_to_list, map_lookup_filter_Some in Hin as [Hget [Hown Hst]].
    simpl in *. exists task. split; [exact Hget|]. split; [reflexivity|].
    split; [exact Hown|]. intros Hfilter. unfold status_matches in Hst.
    destruct Hfilter as [-> | ->]; simpl in Hst; exact Hst.
  - intros (task & Hget & Hsum & Hown & Hst).
    exists (sum_id summary, task). split; [exact Hsum|].
    apply elem_of_map_to_list, map_lookup_filter_Some. split; [exact Hget|].
    split; [exact Hown|]. simpl. unfold status_matches.
    repeat case_decide; subst; try exact I; apply Hst; auto.
Qed.

(** X2. What a listing contains. When the statement goes through,
    [list_tasks] succeeds, leaves the table alone, and lists exactly the rows
    of the caller that the filter admits: all of them for any filter other
    than ["pending"] and ["completed"] (so an unknown filter lists
    everything), and those with that status for these two. Each entry shows
    the key, title and status of its row, no key is listed twice, and the
    count is the length of the list. *)
Theorem list_tasks_contents (str : exn -> string)
    (user_id status_filter : string) (w : World) :
  hd None (faults w) = None ->
  exists listing,
    list_tasks str user_id status_filter w
      = (mkResult true None None (Some listing) (Some (length listing)), consume_fault w)
    /\ NoDup (sum_id <$> listing)
    /\ (forall summary,
          summary ∈ listing
          <-> exists task,
                tasks w !! sum_id summary = Some task
                /\ summary = mkSummary (sum_id summary) (task_title task) (task_status task)
                /\ task_user_id task = user_id
                /\ (status_filter = "pending" \/ status_filter = "completed" ->
                    task_status task = status_filter)).
Proof.
  intros Hfault. eexists. split; [apply list_tasks_ok, Hfault|].
  split; [apply listing_ids_NoDup|].
  intros summary. apply listing_member.
Qed.

Lemma list_tasks_contents_witness :
  hd None (faults Samples.alice_world) = None
  /\ exists listing,
       list_tasks Samples.str0 "alice" "anything" Samples.alice_world
       = (mkResult true None None (Some listing) (Some (length listing)),
          consume_fault Samples.alice_world)
       /\ mkSummary 1 "Buy milk" "pending" ∈ listing.
Proof.
  split; [reflexivity|].
  destruct (list_tasks_contents Samples.str0 "alice" "anything" Samples.alice_world eq_refl)
    as (listing & Hrun & _ & Hin).
  exists listing. split; [exact Hrun|].
  apply Hin. exists Samples.alice_task. repeat split; try reflexivity.
  intros [H | H]; discriminate H.
Defined.

Lemma filter_by_id_NoDup (listing : list TaskSummary) (summary : TaskSummary) :
  NoDup (sum_id <$> listing) ->
  summary ∈ listing ->
  List.filter (fun s => Z.eqb (sum_id s) (sum_id summary)) listing = [summary].
Proof.
  induction listing as [|s listing IH]; simpl; [intros _ H; inversion H|].
  intros Hnodup Hin. apply NoDup_cons in Hnodup as [Hfresh Hnodup].
  apply elem_of_cons in Hin as [<- | Hin].
  - rewrite Z.eqb_refl. f_equal.
    clear IH. induction listing as [|s' listing IH]; simpl; [reflexivity|].
    apply not_elem_of_cons in Hfresh as [Hne Hfresh].
    apply NoDup_cons in Hnodup as [_ Hnodup].
    destruct (Z.eqb (sum_id s') (sum_id summary)) eqn:E; [apply Z.eqb_eq in E; congruence|].
    apply IH; assumption.
  - destruct (Z.eqb (sum_id s) (sum_id summary)) eqn:E; [|apply IH; assumption].
    apply Z.eqb_eq in E. exfalso. apply Hfresh. rewrite E.
    apply list_elem_of_fmap. eauto.
Qed.

Lemma filter_by_id_absent (listing : list TaskSummary) (key : Z) :
  (forall s, s ∈ listing -> sum_id s ≠ key) ->
  List.filter (fun s => Z.eqb (sum_id s) (key)) listing = [].
Proof.
  induction listing as [|s listing IH]; simpl; [reflexivity|]. intros Habsent.
  destruct (Z.eqb (sum_id s) (key)) eqn:E.
  - apply Z.eqb_eq in E. exfalso. apply (Habsent s); [left | exact E].
  - apply IH. intros s' Hs'. apply Habsent. right. exact Hs'.
Qed.

(** X3. Adding and then listing, for a title and a [user_id] of at most
    255 characters, which the columns store as they are. After an [add_task]
    that reported success, a listing for the same user that goes through
    shows the new task exactly once, with the title given and the status
    ["pending"], under every filter except ["completed"], under which it does
    not show it. *)
Theorem add_task_then_list_tasks (str : exn -> string)
    (user_id title status_filter : string) (w w1 : World) (added : ToolResult) :
  fits_column title ->
  fits_column user_id ->
  add_task str user_id title w = (added, w1) ->
  success added = true ->
  hd None (faults w1) = None ->
  exists key listing,
    res_task_id added = Some key
    /\ (list_tasks str user_id status_filter w1).1
       = mkResult true None None (Some listing) (Some (length listing))
    /\ List.filter (fun s => Z.eqb (sum_id s) (key)) listing
       = if decide (status_filter = "completed") then []
         else [mkSummary key title "pending"].
Proof.
  intros _ _ Hadd Hok Hfault.
  destruct (add_task_success_inv str _ _ _ _ _ Hadd Hok)
    as (-> & Hfree & Htasks & _).
  pose proof (list_tasks_ok str user_id status_filter w1 Hfault) as Hlist.
  pose proof (listing_ids_NoDup (filter (selected user_id status_filter) (tasks w1)))
    as Hnodup.
  pose proof (fun summary => listing_member user_id status_filter (tasks w1) summary)
    as Hin.
  revert Hlist Hnodup Hin.
  generalize (format_task <$> map_to_list
                (filter (selected user_id status_filter) (tasks w1))).
  intros listing Hlist Hnodup Hin.
  exists (next_id w), listing. split; [reflexivity|]. rewrite Hlist.
  split; [reflexivity|].
  assert (Hrow : tasks w1 !! next_id w
                 = Some (mkTask title "pending" user_id
                           (hd 0 (clock w)) None (hd 0 (tl (clock w)))))
    by (rewrite Htasks; apply lookup_insert_eq).
  destruct (decide (status_filter = "completed")) as [-> | Hfilter].
  - apply filter_by_id_absent. intros s Hs Hkey.
    apply Hin in Hs as (task & Hget & _ & _ & Hst).
    rewrite Hkey, Hrow in Hget. injection Hget as <-.
    specialize (Hst (or_intror eq_refl)). discriminate Hst.
  - apply (filter_by_id_NoDup listing (mkSummary (next_id w) title "pending") Hnodup).
    apply Hin. simpl. eexists. split; [exact Hrow|]. simpl.
    split; [reflexivity|]. split; [reflexivity|].
    intros [-> | ->]; [reflexivity | contradiction].
Qed.

Lemma add_task_then_list_tasks_witness :
  fits_column "walk dog"
  /\ fits_column "alice"
  /\ success (add_task Samples.str0 "alice" "walk dog" Samples.alice_world).1 = true
  /\ exists listing,
       res_tasks (list_tasks Samples.str0 "alice" "pending"
                    (add_task Samples.str0 "alice" "walk dog" Samples.alice_world).2).1
       = Some listing
       /\ List.filter (fun s => Z.eqb (sum_id s) (2)) listing = [mkSummary 2 "walk dog" "pending"].
Proof.
  assert (Htitle : fits_column "walk dog") by (vm_compute; lia).
  assert (Huser : fits_column "alice") by (vm_compute; lia).
  split; [exact Htitle|]. split; [exact Huser|]. split; [reflexivity|].
  destruct (add_task_then_list_tasks Samples.str0 "alice" "walk dog" "pending"
              Samples.alice_world
              (add_task Samples.str0 "alice" "walk dog" Samples.alice_world).2
              (add_task Samples.str0 "alice" "walk dog" Samples.alice_world).1
              Htitle Huser eq_refl eq_refl eq_refl) as (key & listing & Hkey & Hlist & Hfilter).
  injection Hkey as <-. exists listing. rewrite Hlist. split; [reflexivity | exact Hfilter].
Defined.

(** ** complete_task and delete_task: what a success has done *)

(** X4. A [complete_task] that reported success found a task of the
    caller under that id and wrote its status and its completion time only:
    the row has the status ["completed"] and the clock reading as
    [completed_at], keeps its title, owner, [created_at] and [updated_at],
    and every other row of the table is as it was. The message quotes the
    title. *)
Theorem complete_task_effect (str : exn -> string)
    (user_id : string) (task_id : Z) (w w' : World) (result : ToolResult) :
  complete_task str user_id task_id w = (result, w') ->
  success result = true ->
  exists task,
    tasks w !! task_id = Some task
    /\ task_user_id task = user_id
    /\ tasks w' !! task_id
       = Some (mkTask (task_title task) "completed" (task_user_id task)
                 (task_created_at task) (Some (hd 0 (clock w))) (task_updated_at task))
    /\ (forall key, key ≠ task_id -> tasks w' !! key = tasks w !! key)
    /\ message result
       = Some ("Successfully marked task '" +:+ task_title task +:+ "' as completed").
Proof.
  run_tool.
  destruct (hd None (faults w)) as [info|]; simpl; [intros [= <- <-]; discriminate|].
  destruct (tasks w !! task_id) as [task|] eqn:Hget; simpl;
    [|intros [= <- <-]; discriminate].
  destruct (decide (task_user_id task ≠ user_id)) as [Hne|Heq]; simpl;
    [intros [= <- <-]; discriminate|].
  destruct (hd None (tl (faults w))) as [info|]; simpl; [intros [= <- <-]; discriminate|].
  destruct (hd None (tl (tl (faults w)))) as [info|]; simpl;
    [intros [= <- <-]; discriminate|].
  intros [= <- <-] _. exists task. simpl. split; [reflexivity|].
  split; [destruct (decide (task_user_id task = user_id)); [assumption | contradiction]|].
  split; [rewrite lookup_alter_eq, Hget; reflexivity|].
  split; [|reflexivity]. intros key Hkey. apply lookup_alter_ne. congruence.
Qed.

Lemma complete_task_effect_witness :
  success (complete_task Samples.str0 "alice" 1 Samples.alice_world).1 = true
  /\ tasks (complete_task Samples.str0 "alice" 1 Samples.alice_world).2 !! 1
     = Some (mkTask "Buy milk" "completed" "alice" 10 (Some 0) 10).
Proof.
  split; [reflexivity|].
  destruct (complete_task_effect Samples.str0 "alice" 1 Samples.alice_world
              (complete_task Samples.str0 "alice" 1 Samples.alice_world).2
              (complete_task Samples.str0 "alice" 1 Samples.alice_world).1
              eq_refl eq_refl) as (task & Hget & _ & Hrow & _).
  change (tasks Samples.alice_world !! 1) with (Some Samples.alice_task) in Hget.
  injection Hget as <-. exact Hrow.
Defined.

(** X5. A [delete_task] that reported success found a task of the caller
    under that id and removed that row and no other; the message quotes the
    title the row had. *)
Theorem delete_task_effect (str : exn -> string)
    (user_id : string) (task_id : Z) (w w' : World) (result : ToolResult) :
  delete_task str user_id task_id w = (result, w') ->
  success result = true ->
  exists task,
    tasks w !! task_id = Some task
    /\ task_user_id task = user_id
    /\ (forall key, key ≠ task_id -> tasks w' !! key = tasks w !! key)
    /\ size (tasks w) = S (size (tasks w'))
    /\ message result = Some ("Successfully deleted task '" +:+ task_title task +:+ "'").
Proof.
  intros Hrun Hok.
  destruct (delete_task_success_inv str _ _ _ _ _ Hrun Hok) as (task & Hget & Hown & Htasks).
  exists task. split; [exact Hget|]. split; [exact Hown|].
  split; [intros key Hkey; rewrite Htasks; apply lookup_delete_ne; congruence|].
  split.
  { rewrite Htasks. rewrite <- (insert_delete_id (tasks w) task_id task Hget) at 1.
    apply map_size_insert_None, lookup_delete_eq. }
  revert Hrun Hok. run_tool.
  destruct (hd None (faults w)) as [info|]; simpl; [intros [= <- <-]; discriminate|].
  rewrite Hget.
  destruct (decide (task_user_id task ≠ user_id)) as [Hne|_]; simpl;
    [intros [= <- <-]; discriminate|].
  destruct (hd None (tl (faults w))) as [info|]; simpl; [intros [= <- <-]; discriminate|].
  intros [= <- <-] _. reflexivity.
Qed.

Lemma delete_task_effect_witness :
  success (delete_task Samples.str0 "alice" 1 Samples.alice_world).1 = true
  /\ size (tasks Samples.alice_world)
     = S (size (tasks (delete_task Samples.str0 "alice" 1 Samples.alice_world).2)).
Proof.
  split; [reflexivity|].
  destruct (delete_task_effect Samples.str0 "alice" 1 Samples.alice_world
              (delete_task Samples.str0 "alice" 1 Samples.alice_world).2
              (delete_task Samples.str0 "alice" 1 Samples.alice_world).1
              eq_refl eq_refl) as (task & _ & _ & _ & Hsize & _).
  exact Hsize.
Defined.

(** ** Faults and refusals *)

(** X6. When the database connection fails on the first statement of a
    tool, each of the five tools returns its own failure result, made of its
    prefix and the text of the exception, and the table is as it was. *)
Theorem tools_report_database_fault (str : exn -> string)
    (user_id title status_filter : string) (task_id : Z) (info : string) (w : World) :
  hd None (faults w) = Some info ->
  let cause := str (OperationalError info) in
  ((add_task str user_id title w).1 = failure ("Error adding task: " +:+ cause)
   /\ tasks (add_task str user_id title w).2 = tasks w)
  /\ ((list_tasks str user_id status_filter w).1
      = failure ("Error listing tasks: " +:+ cause)
      /\ tasks (list_tasks str user_id status_filter w).2 = tasks w)
  /\ ((complete_task str user_id task_id w).1
      = failure ("Error completing task: " +:+ cause)
      /\ tasks (complete_task str user_id task_id w).2 = tasks w)
  /\ ((delete_task str user_id task_id w).1
      = failure ("Error deleting task: " +:+ cause)
      /\ tasks (delete_task str user_id task_id w).2 = tasks w)
  /\ ((update_task str user_id task_id title w).1
      = failure ("Error updating task: " +:+ cause)
      /\ tasks (update_task str user_id task_id title w).2 = tasks w).
Proof.
  intros Hfault. run_tool. rewrite Hfault. simpl. repeat split.
Qed.

Lemma tools_report_database_fault_witness :
  hd None (faults (mkWorld {[ 1 := Samples.alice_task ]} 2 [] [Some "connection refused"]))
    = Some "connection refused"
  /\ (delete_task Samples.str0 "alice" 1
        (mkWorld {[ 1 := Samples.alice_task ]} 2 [] [Some "connection refused"])).1
     = failure "Error deleting task: connection refused".
Proof.
  split; [reflexivity|].
  exact (proj1 (proj1 (proj2 (proj2 (proj2
    (tools_report_database_fault Samples.str0 "alice" "t" "all" 1 "connection refused"
       (mkWorld {[ 1 := Samples.alice_task ]} 2 [] [Some "connection refused"])
       eq_refl)))))).
Defined.

(** X7. [list_tasks] never changes the table, and a [delete_task] or an
    [update_task] that reports failure has not changed it either: whatever
    the reason (a fault, a missing task, a task of another user, a title that
    is too long), nothing was written. *)
Theorem unsuccessful_calls_write_nothing (str : exn -> string)
    (user_id title status_filter : string) (task_id : Z) (w : World) :
  tasks (list_tasks str user_id status_filter w).2 = tasks w
  /\ (success (delete_task str user_id task_id w).1 = false ->
      tasks (delete_task str user_id task_id w).2 = tasks w)
  /\ (success (update_task str user_id task_id title w).1 = false ->
      tasks (update_task str user_id task_id title w).2 = tasks w).
Proof.
  split; [|split].
  - run_tool. destruct (hd None (faults w)); reflexivity.
  - run_tool.
    destruct (hd None (faults w)); simpl; [reflexivity|].
    destruct (tasks w !! task_id) as [task|]; simpl; [|reflexivity].
    destruct (decide (task_user_id task ≠ user_id)); simpl; [reflexivity|].
    destruct (hd None (tl (faults w))); simpl; [reflexivity | discriminate].
  - run_tool.
    destruct (hd None (faults w)); simpl; [reflexivity|].
    destruct (tasks w !! task_id) as [task|]; simpl; [|reflexivity].
    destruct (decide (task_user_id task ≠ user_id)); simpl; [reflexivity|].
    destruct (hd None (tl (faults w))); simpl; [reflexivity|].
    destruct (characters title <=? max_length)%nat; simpl; [discriminate | reflexivity].
Qed.

(** X8. A title of more than 255 characters that does not end in a space
    is refused by both tools that write titles: [add_task] and [update_task]
    return a failure result and the table is as it was. *)
Theorem long_title_is_refused (str : exn -> string)
    (user_id title : string) (task_id : Z) (w : World) :
  (max_length < characters title)%nat ->
  last_character title ≠ Some " "%char ->
  (success (add_task str user_id title w).1 = false
   /\ tasks (add_task str user_id title w).2 = tasks w)
  /\ (success (update_task str user_id task_id title w).1 = false
      /\ tasks (update_task str user_id task_id title w).2 = tasks w).
Proof.
  intros Hlong _. apply Nat.leb_gt in Hlong. split.
  - run_tool. destruct (hd None (faults w)); simpl; [auto|].
    rewrite Hlong. simpl. auto.
  - run_tool. destruct (hd None (faults w)); simpl; [auto|].
    destruct (tasks w !! task_id) as [task|]; simpl; [|auto].
    destruct (decide (task_user_id task ≠ user_id)); simpl; [auto|].
    destruct (hd None (tl (faults w))); simpl; [auto|].
    rewrite Hlong. simpl. auto.
Qed.

Lemma long_title_is_refused_witness :
  (max_length < characters (String.concat "" (replicate 256 "a")))%nat
  /\ last_character (String.concat "" (replicate 256 "a")) ≠ Some " "%char
  /\ success (update_task Samples.str0 "alice" 1 (String.concat "" (replicate 256 "a"))
               Samples.alice_world).1 = false
  /\ success (add_task Samples.str0 "alice" (String.concat "" (replicate 256 "a"))
               Samples.alice_world).1 = false.
Proof.
  assert (Hlong : (max_length < characters (String.concat "" (replicate 256 "a")))%nat)
    by (vm_compute; lia).
  assert (Hlast : last_character (String.concat "" (replicate 256 "a")) ≠ Some " "%char)
    by (vm_compute; discriminate).
  split; [exact Hlong|]. split; [exact Hlast|].
  pose proof (long_title_is_refused Samples.str0 "alice"
                (String.concat "" (replicate 256 "a")) 1
                Samples.alice_world Hlong Hlast) as [[Hadd _] [Hupdate _]].
  split; [exact Hupdate | exact Hadd].
Defined.

(** ** The key sequence *)































(** The column counts characters, not bytes: a title of 255 characters of
    two bytes each is stored. *)
Example two_byte_characters_fit :
  let e_acute := String (ascii_of_nat 195) (String (ascii_of_nat 169) "") in
  let title := String.concat "" (replicate 255 e_acute) in
  String.length title = 510%nat
  /\ characters title = 255%nat
  /\ success (add_task Samples.str0 "bob" title Samples.alice_world).1 = true.
Proof. vm_compute. auto. Qed.

(** * Further properties of the executor and the agents *)

(** ** Registry and schemas *)

Lemma registry_known (tool_name : string) :
  tool_name ∈ tools_keys -> exists f, tools_registry !! tool_name = Some f /\ tool_name_of f = tool_name.
Proof.
  unfold tools_keys. intros Hin.
  repeat (apply elem_of_cons in Hin as [-> | Hin]; [eexists; split; reflexivity|]).
  inversion Hin.
Qed.

Lemma find_entry_None {A} (table : list (string * A)) (name : string) :
  name ∉ table.*1 ->
  List.find (fun entry => String.eqb entry.1 name) table = None.
Proof.
  induction table as [|[key value] table IH]; simpl; [reflexivity|].
  intros Hnot. apply not_elem_of_cons in Hnot as [Hne Hnot].
  destruct (String.eqb_spec key name) as [-> | _]; [contradiction | apply IH, Hnot].
Qed.

Lemma schema_unknown (tool_name : string) :
  tool_name ∉ tools_keys -> get_tool_schema tool_name = None.
Proof.
  intros Hnot. unfold get_tool_schema. rewrite find_entry_None; [reflexivity | exact Hnot].
Qed.

(** X11. The registry and the schema table describe the same five tools.
    A name is registered exactly when it has a schema, and that is exactly
    for the five names of [tools_keys]; for every other name
    [get_tool_schema] returns the empty dict. The schema of a tool bears the
    name of the tool, requires [user_id], and requires only parameters it
    declares. [get_all_tool_schemas] returns the five schemas in the order of
    the registry. *)
Theorem registry_and_schemas_agree :
  (forall tool_name,
      (is_Some (tools_registry !! tool_name) <-> tool_name ∈ tools_keys)
      /\ (is_Some (get_tool_schema tool_name) <-> tool_name ∈ tools_keys))
  /\ (forall tool_name schema,
      get_tool_schema tool_name = Some schema ->
      schema_name schema = tool_name
      /\ "user_id" ∈ schema_required schema
      /\ schema_required schema ⊆ (schema_properties schema).*1)
  /\ (fun schema => schema_name <$> schema) <$> get_all_tool_schemas = Some <$> tools_keys.
Proof.
  split; [|split].
  - intros tool_name. destruct (decide (tool_name ∈ tools_keys)) as [Hin | Hnot].
    + split; (split; [intros _; exact Hin | intros _]).
      * destruct (registry_known _ Hin) as (f & -> & _). eauto.
      * unfold tools_keys in Hin.
        repeat (apply elem_of_cons in Hin as [-> | Hin]; [eexists; reflexivity|]).
        inversion Hin.
    + split; (split; [|intros Hin; contradiction]).
      * rewrite (registry_unknown _ Hnot). intros [f Hf]. discriminate.
      * rewrite (schema_unknown _ Hnot). intros [f Hf]. discriminate.
  - intros tool_name schema Hschema.
    destruct (decide (tool_name ∈ tools_keys)) as [Hin | Hnot];
      [|rewrite (schema_unknown _ Hnot) in Hschema; discriminate].
    unfold tools_keys in Hin.
    repeat (apply elem_of_cons in Hin as [-> | Hin];
            [injection Hschema as <-; simpl; split; [reflexivity|]; split; set_solver|]).
    inversion Hin.
  - reflexivity.
Qed.

Lemma other_in_keywords u t i sf o others :
  o ∈ keywords (mkKwargs u t i sf (o :: others)).
Proof. unfold keywords. simpl. rewrite !elem_of_app. do 4 right. left. Qed.

Lemma execute_tool_unbound (str : exn -> string) f kw w (fits : Prop) :
  ((exists result w', call_tool str f kw w = (Ok result, w')) <-> fits) ->
  ((exists result w', call_tool str f kw w = (Ok result, w')) <-> fits)
  /\ (~ fits ->
      execute_tool str (tool_name_of f) kw w
      = (failure ("Error executing tool '" +:+ tool_name_of f +:+ "': "
                  +:+ str (TypeError (tool_name_of f) kw)), w)).
Proof.
  intros Hbind. split; [exact Hbind|]. intros Hnot.
  unfold execute_tool, try_except. rewrite registry_lookup.
  destruct (call_tool str f kw w) as [[r|e] w1] eqn:Hcall.
  - exfalso. apply Hnot, Hbind. eauto.
  - apply call_tool_raises in Hcall as [-> ->]. reflexivity.
Qed.

(** X12. The schemas describe the parameters of the tool functions. For a
    registered tool, the call of the tool function binds its keywords, so
    that the body runs, exactly when the keywords present contain every
    parameter the schema requires and only parameters the schema declares;
    otherwise [execute_tool] answers with the failure result of the
    [TypeError] and the world is as it was. *)
Theorem schema_fits_tool_function (str : exn -> string)
    (f : tool) (kw : kwargs) (w : World) :
  others_are_other kw ->
  exists schema,
    get_tool_schema (tool_name_of f) = Some schema
    /\ ((exists result w', call_tool str f kw w = (Ok result, w'))
        <-> schema_required schema ⊆ keywords kw
            /\ keywords kw ⊆ (schema_properties schema).*1)
    /\ (~ (schema_required schema ⊆ keywords kw
           /\ keywords kw ⊆ (schema_properties schema).*1) ->
        execute_tool str (tool_name_of f) kw w
        = (failure ("Error executing tool '" +:+ tool_name_of f +:+ "': "
                    +:+ str (TypeError (tool_name_of f) kw)), w)).
Proof.
  intros Hothers.
  assert (Hruns : forall A (step : World -> A * World),
             exists result w', lift step w = (Ok result, w')).
  { intros A step. unfold lift. destruct (step w) as [a w1]. eauto. }
  assert (Hraise : forall e, ~ exists result w',
             @raise ToolResult e w = (Ok result, w')).
  { intros e (result & w' & H). discriminate H. }
  destruct kw as [u t i sf others]. unfold others_are_other in Hothers. simpl in Hothers.
  destruct f; (eexists; split; [reflexivity|]); apply execute_tool_unbound;
    destruct others as [|o others].
  all: try (apply Forall_cons in Hothers as [Ho _]; cbn beta in Ho).
  all: destruct u as [u|], t as [t|], i as [i|], sf as [sf|]; simpl.
  all: first
    [ (* the keywords bind *)
      split; [intros _; apply (bool_decide_unpack _); vm_compute; exact I
             | intros _; apply Hruns]
    | (* a keyword is missing or is not a parameter *)
      split; [intros H; exfalso; exact (Hraise _ H)|];
      intros Hfit; exfalso;
      pose proof (bool_decide_pack _ Hfit) as Hb; vm_compute in Hb; exact Hb
    | (* a keyword outside the schemas *)
      split; [intros H; exfalso; exact (Hraise _ H)|];
      intros [_ Hprop]; exfalso; apply Ho;
      specialize (Hprop o (other_in_keywords _ _ _ _ _ _)); simpl in Hprop;
      repeat (apply elem_of_cons in Hprop as [-> | Hprop];
              [apply (bool_decide_unpack _); vm_compute; exact I|]);
      inversion Hprop ].
Qed.

Lemma schema_fits_tool_function_witness :
  others_are_other (mkKwargs (Some "bob") None None None ["force"])
  /\ execute_tool Samples.str0 "delete_task" (mkKwargs (Some "bob") None None None ["force"])
       Samples.alice_world
     = (failure "Error executing tool 'delete_task': TypeError", Samples.alice_world).
Proof.
  assert (Hothers : others_are_other (mkKwargs (Some "bob") None None None ["force"])).
  { repeat constructor. intros Hin.
    repeat (apply elem_of_cons in Hin as [Hin|Hin]; [discriminate Hin|]). inversion Hin. }
  split; [exact Hothers|].
  destruct (schema_fits_tool_function Samples.str0 DeleteTask
              (mkKwargs (Some "bob") None None None ["force"]) Samples.alice_world Hothers)
    as (schema & Hschema & _ & Hfail).
  injection Hschema as <-. apply Hfail. intros [Hreq _].
  assert (Hin : "task_id" ∈ ["user_id"; "force"]).
  { apply (Hreq "task_id"). right. left. }
  repeat (apply elem_of_cons in Hin as [Hin|Hin]; [discriminate Hin|]). inversion Hin.
Defined.

(** ** The action agent *)

Lemma action_unknown (action_name : string) :
  action_name ∉ ["add"; "update"; "delete"; "complete"] ->
  action_map !! action_name = None.
Proof.
  intros Hnot. unfold action_map.
  repeat (rewrite lookup_insert_ne; [| intros <-; apply Hnot; set_solver]).
  apply lookup_empty.
Qed.

(** X13. For an action outside the four of the action map, whatever the
    keywords, [execute_action] returns the failure result ["Action '<kind>'
    not supported"] and leaves the world as it was: no tool is called and no
    statement reaches the database. *)
Theorem execute_action_unsupported (str : exn -> string)
    (action_name user_id : string) (kw : kwargs) (w : World) :
  action_name ∉ ["add"; "update"; "delete"; "complete"] ->
  execute_action str action_name user_id kw w
  = (Ok (mkResult false (Some ("Action '" +:+ action_name +:+ "' not supported"))
           None None None), w).
Proof.
  intros Hnot. unfold execute_action. rewrite (action_unknown _ Hnot). reflexivity.
Qed.

Lemma execute_action_unsupported_witness :
  ("archive" ∉ ["add"; "update"; "delete"; "complete"])
  /\ execute_action Samples.str0 "archive" "alice"
       (mkKwargs None None (Some 1) None []) Samples.alice_world
     = (Ok (failure "Action 'archive' not supported"), Samples.alice_world).
Proof.
  assert (H : "archive" ∉ ["add"; "update"; "delete"; "complete"]).
  { intros Hin. repeat (apply elem_of_cons in Hin as [Hin|Hin]; [discriminate Hin|]).
    inversion Hin. }
  split; [exact H|].
  exact (execute_action_unsupported Samples.str0 "archive" "alice" _ Samples.alice_world H).
Defined.

Lemma execute_tool_add_task (str : exn -> string) user_id title w :
  execute_tool str "add_task" (mkKwargs (Some user_id) (Some title) None None []) w
  = add_task str user_id title w.
Proof.
  unfold execute_tool. change (tools_registry !! "add_task") with (Some AddTask).
  unfold try_except, call_tool, lift. destruct (add_task str user_id title w). reflexivity.
Qed.

Lemma execute_tool_update_task (str : exn -> string) user_id task_id title w :
  execute_tool str "update_task" (mkKwargs (Some user_id) (Some title) (Some task_id) None []) w
  = update_task str user_id task_id title w.
Proof.
  unfold execute_tool. change (tools_registry !! "update_task") with (Some UpdateTask).
  unfold try_except, call_tool, lift.
  destruct (update_task str user_id task_id title w). reflexivity.
Qed.

Lemma execute_tool_delete_task (str : exn -> string) user_id task_id w :
  execute_tool str "delete_task" (mkKwargs (Some user_id) None (Some task_id) None []) w
  = delete_task str user_id task_id w.
Proof.
  unfold execute_tool. change (tools_registry !! "delete_task") with (Some DeleteTask).
  unfold try_except, call_tool, lift. destruct (delete_task str user_id task_id w). reflexivity.
Qed.

Lemma execute_tool_complete_task (str : exn -> string) user_id task_id w :
  execute_tool str "complete_task" (mkKwargs (Some user_id) None (Some task_id) None []) w
  = complete_task str user_id task_id w.
Proof.
  unfold execute_tool. change (tools_registry !! "complete_task") with (Some CompleteTask).
  unfold try_except, call_tool, lift.
  destruct (complete_task str user_id task_id w). reflexivity.
Qed.

Lemma lift_run {A} (step : World -> A * World) (w : World) :
  lift step w = (Ok (step w).1, (step w).2).
Proof. unfold lift. destruct (step w). reflexivity. Qed.

(** X14. Through the action map and the tool registry, each of the four
    actions, given the keywords of its method, does exactly what the tool of
    [mcp/tools.py] does for the [user_id] passed to [execute_action], and
    returns the tool's result. *)
Theorem execute_action_runs_the_tool (str : exn -> string)
    (user_id title : string) (task_id : Z) (w : World) :
  execute_action str "add" user_id (mkKwargs None (Some title) None None []) w
    = (Ok (add_task str user_id title w).1, (add_task str user_id title w).2)
  /\ execute_action str "update" user_id (mkKwargs None (Some title) (Some task_id) None []) w
    = (Ok (update_task str user_id task_id title w).1,
       (update_task str user_id task_id title w).2)
  /\ execute_action str "delete" user_id (mkKwargs None None (Some task_id) None []) w
    = (Ok (delete_task str user_id task_id w).1, (delete_task str user_id task_id w).2)
  /\ execute_action str "complete" user_id (mkKwargs None None (Some task_id) None []) w
    = (Ok (complete_task str user_id task_id w).1, (complete_task str user_id task_id w).2).
Proof.
  unfold execute_action.
  change (action_map !! "add") with (Some ActionAdd).
  change (action_map !! "update") with (Some ActionUpdate).
  change (action_map !! "delete") with (Some ActionDelete).
  change (action_map !! "complete") with (Some ActionComplete).
  unfold call_action. rewrite !lift_run.
  unfold TaskActionAgent_add_task, TaskActionAgent_update_task,
    TaskActionAgent_delete_task, TaskActionAgent_complete_task.
  rewrite execute_tool_add_task, execute_tool_update_task, execute_tool_delete_task,
    execute_tool_complete_task.
  repeat split.
Qed.

Lemma action_known (action_name : string) (a : action) :
  action_map !! action_name = Some a ->
  action_name ∈ ["add"; "update"; "delete"; "complete"].
Proof.
  intros Hget. destruct (decide (action_name ∈ ["add"; "update"; "delete"; "complete"]))
    as [Hin|Hnot]; [exact Hin|].
  rewrite (action_unknown _ Hnot) in Hget. discriminate.
Qed.

(** X15. [execute_action] has no [try]: for a supported action, the call
    of the method returns a result exactly when the keywords present are the
    keywords of the method ([user_id] is passed by [execute_action] itself);
    with any other keywords it raises [TypeError] to its caller, before any
    tool is called, where [execute_tool] would have returned a failure
    result. *)
Theorem execute_action_raises_type_error (str : exn -> string)
    (action_name user_id : string) (a : action) (kw : kwargs) (w : World) :
  action_map !! action_name = Some a ->
  others_are_other kw ->
  ((exists result w', execute_action str action_name user_id kw w = (Ok result, w'))
   <-> keywords kw = action_keywords a)
  /\ (keywords kw ≠ action_keywords a ->
      execute_action str action_name user_id kw w
      = (Raised (TypeError (action_method a) kw), w)).
Proof.
  intros Hmap Hothers. unfold execute_action. rewrite Hmap.
  assert (Hruns : forall A (step : World -> A * World),
             exists result w', lift step w = (Ok result, w')).
  { intros A step. unfold lift. destruct (step w) as [r w1]. eauto. }
  destruct kw as [u t i sf others]. unfold others_are_other in Hothers. simpl in Hothers.
  destruct others as [|o others].
  2:{ apply Forall_cons in Hothers as [Ho _]. cbn beta in Ho.
      assert (Hne : keywords (mkKwargs u t i sf (o :: others)) ≠ action_keywords a).
      { intros Heq. apply Ho.
        pose proof (other_in_keywords u t i sf o others) as Hin. rewrite Heq in Hin.
        destruct a; simpl in Hin;
          repeat (apply elem_of_cons in Hin as [-> | Hin];
                  [apply (bool_decide_unpack _); vm_compute; exact I|]);
          inversion Hin. }
      assert (Hraise : call_action str a user_id (mkKwargs u t i sf (o :: others)) w
                       = (Raised (TypeError (action_method a) (mkKwargs u t i sf (o :: others))), w)).
      { destruct a, u, t, i, sf; reflexivity. }
      rewrite Hraise. split; [|reflexivity].
      split; [intros (r & w' & H); discriminate H | intros H; contradiction]. }
  destruct a, u as [u|], t as [t|], i as [i|], sf as [sf|]; unfold keywords; simpl;
    first
      [ split; [split; [reflexivity | intros _; apply Hruns] | intros H; contradiction]
      | split; [split; [intros (r & w' & H); discriminate H | intros H; discriminate H]
               | reflexivity] ].
Qed.

Lemma execute_action_raises_type_error_witness :
  action_map !! "delete" = Some ActionDelete
  /\ execute_action Samples.str0 "delete" "alice" Samples.no_kwargs Samples.alice_world
     = (Raised (TypeError "TaskActionAgent.delete_task" Samples.no_kwargs),
        Samples.alice_world).
Proof.
  split; [reflexivity|].
  apply (proj2 (execute_action_raises_type_error Samples.str0 "delete" "alice" ActionDelete
                  Samples.no_kwargs Samples.alice_world eq_refl (Forall_nil_2 _))).
  discriminate.
Defined.


(** ** The query agent: fixed listings and search *)

(** X16. The three fixed listings of one world. When the statement goes
    through, [get_pending_tasks], [get_completed_tasks] and [get_all_tasks]
    succeed; the pending listing holds exactly the entries of the full
    listing whose status is ["pending"], the completed listing exactly those
    whose status is ["completed"], and no entry is in both. *)
Theorem fixed_listings (str : exn -> string) (user_id : string) (w : World) :
  hd None (faults w) = None ->
  exists pending completed everything,
    get_pending_tasks str user_id w
      = (mkResult true None None (Some pending) (Some (length pending)), consume_fault w)
    /\ get_completed_tasks str user_id w
      = (mkResult true None None (Some completed) (Some (length completed)), consume_fault w)
    /\ get_all_tasks str user_id w
      = (mkResult true None None (Some everything) (Some (length everything)),
         consume_fault w)
    /\ (forall summary,
          summary ∈ pending <-> summary ∈ everything /\ sum_status summary = "pending")
    /\ (forall summary,
          summary ∈ completed <-> summary ∈ everything /\ sum_status summary = "completed")
    /\ (forall summary, summary ∈ pending -> summary ∉ completed).
Proof.
  intros Hfault. unfold get_pending_tasks, get_completed_tasks, get_all_tasks.
  rewrite !TaskQueryAgent_list_tasks_eq, !(list_tasks_ok str _ _ _ Hfault).
  eexists _, _, _. split; [reflexivity|]. split; [reflexivity|]. split; [reflexivity|].
  assert (Hsub : forall status, status = "pending" \/ status = "completed" ->
            forall summary,
              summary ∈ format_task <$> map_to_list (filter (selected user_id status) (tasks w))
              <-> summary ∈ format_task <$> map_to_list (filter (selected user_id "all") (tasks w))
                  /\ sum_status summary = status).
  { intros status Hstatus summary. rewrite !listing_member. split.
    - intros (task & Hget & Hsum & Hown & Hst). specialize (Hst Hstatus). split.
      + exists task. repeat split; auto. intros [H | H]; discriminate H.
      + rewrite Hsum. exact Hst.
    - intros [(task & Hget & Hsum & Hown & _) Hst]. exists task.
      repeat split; auto. intros _. rewrite Hsum in Hst. exact Hst. }
  split; [apply Hsub; auto|]. split; [apply Hsub; auto|].
  intros summary Hp Hc. apply Hsub in Hp as [_ Hp]; [|auto].
  apply Hsub in Hc as [_ Hc]; [|auto]. congruence.
Qed.

Lemma fixed_listings_witness :
  hd None (faults Samples.alice_world) = None
  /\ (get_pending_tasks Samples.str0 "alice" Samples.alice_world).1
     = mkResult true None None (Some [mkSummary 1 "Buy milk" "pending"]) (Some 1%nat)
  /\ (get_completed_tasks Samples.str0 "alice" Samples.alice_world).1
     = mkResult true None None (Some []) (Some 0%nat).
Proof.
  split; [reflexivity|].
  destruct (fixed_listings Samples.str0 "alice" Samples.alice_world eq_refl)
    as (pending & completed & everything & Hp & Hc & _).
  rewrite Hp, Hc. split; [injection Hp as <-; reflexivity | injection Hc as <-; reflexivity].
Defined.

Lemma contains_empty (hay : string) : contains "" hay = true.
Proof. destruct hay; reflexivity. Qed.

Lemma filter_all {A} (f : A -> bool) (l : list A) :
  (forall x, f x = true) -> List.filter f l = l.
Proof.
  intros Hall. induction l as [|x l IH]; simpl; [reflexivity|].
  rewrite Hall, IH. reflexivity.
Qed.

(** X17. The empty search term matches every title: when the listing
    succeeds, [search_tasks] with the term [""] returns the whole listing,
    with its length as count. *)
Theorem search_tasks_empty_term (str : exn -> string) (unicode_lower : string -> string)
    (user_id status_filter : string) (w : World) :
  success (TaskQueryAgent_list_tasks str user_id status_filter w).1 = true ->
  search_tasks str unicode_lower user_id "" status_filter w
  = (mkResult true None None
       (Some (default [] (res_tasks (TaskQueryAgent_list_tasks str user_id status_filter w).1)))
       (Some (length (default []
                (res_tasks (TaskQueryAgent_list_tasks str user_id status_filter w).1)))),
     (TaskQueryAgent_list_tasks str user_id status_filter w).2).
Proof.
  unfold search_tasks.
  destruct (TaskQueryAgent_list_tasks str user_id status_filter w) as [listed w1].
  simpl. intros ->. simpl.
  rewrite filter_all; [reflexivity|].
  intros task. unfold title_matches. apply contains_empty.
Qed.

Lemma search_tasks_empty_term_witness :
  (search_tasks Samples.str0 Samples.unicode_lower0 "alice" "" "all"
     Samples.alice_world).1
  = mkResult true None None (Some [mkSummary 1 "Buy milk" "pending"]) (Some 1%nat).
Proof.
  rewrite (search_tasks_empty_term Samples.str0 Samples.unicode_lower0 "alice" "all"
             Samples.alice_world eq_refl).
  reflexivity.
Defined.
